(** * MaterializedGraph: a shallow embedding of
      [torch_geometric/data/materialized_graph.py]

    The module defines an enum [EdgeLayout], a dataclass [EdgeAttr] and an
    abstract mapping class [MaterializedGraph] whose public methods cast their
    loosely typed arguments to an [EdgeAttr] and forward to two hooks that
    subclasses implement.  The embedding keeps Python's dynamic typing
    ([PyVal]), its exceptions ([exn]) and the mutation of [self] (a state and
    exception monad [M]). *)

From Stdlib Require Import List String DecimalString ZArith Bool Lia Permutation.
Import ListNotations.
Open Scope string_scope.
Open Scope Z_scope.
Open Scope list_scope.

(** ** Python values *)

(** [class EdgeLayout(Enum)], lines 13-17. *)
Inductive EdgeLayout : Type := COO | CSC | CSR | LIL.

Definition EdgeLayout_value (l : EdgeLayout) : string :=
  match l with
  | COO => "COO"
  | CSC => "CSC"
  | CSR => "CSR"
  | LIL => "LIL"
  end.

Definition EdgeLayout_eqb (a b : EdgeLayout) : bool :=
  match a, b with
  | COO, COO | CSC, CSC | CSR, CSR | LIL, LIL => true
  | _, _ => false
  end.

(** The fragment of the Python value universe that the module handles:
    [None], booleans, integers, strings, enum members, one-dimensional
    [LongTensor]s, tuples, lists, string-keyed dicts (in insertion order) and
    instances of the dataclass [EdgeAttr] (a [layout] and an [edge_type]
    attribute, neither of them type-checked at run time). *)
#[local] Set Warnings "-register-all".
Inductive PyVal : Type :=
| PNone
| PBool (b : bool)
| PInt (z : Z)
| PStr (s : string)
| PLayout (l : EdgeLayout)
| PTensor (data : list Z)
| PTuple (items : list PyVal)
| PList (items : list PyVal)
| PDict (items : list (string * PyVal))
| PEdgeAttr (layout edge_type : PyVal).

#[local] Set Warnings "register-all".

Definition list_eqb {A : Type} (eqb : A -> A -> bool) : list A -> list A -> bool :=
  fix go xs ys :=
    match xs, ys with
    | [], [] => true
    | x :: xs', y :: ys' => eqb x y && go xs' ys'
    | _, _ => false
    end.

(** Equality of values ([==]), used by dict-backed subclasses to compare
    keys: structural, with [True == 1] and [False == 0] as in Python. *)
Fixpoint PyVal_eqb (a b : PyVal) {struct a} : bool :=
  match a, b with
  | PNone, PNone => true
  | PBool x, PBool y => Bool.eqb x y
  | PInt x, PInt y => x =? y
  | PBool x, PInt y | PInt y, PBool x => (if x then 1 else 0) =? y
  | PStr x, PStr y => String.eqb x y
  | PLayout x, PLayout y => EdgeLayout_eqb x y
  | PTensor x, PTensor y => list_eqb Z.eqb x y
  | PTuple xs, PTuple ys | PList xs, PList ys =>
      (fix go (xs ys : list PyVal) {struct xs} : bool :=
         match xs, ys with
         | [], [] => true
         | x :: xs', y :: ys' => PyVal_eqb x y && go xs' ys'
         | _, _ => false
         end) xs ys
  | PDict xs, PDict ys =>
      (fix go (xs ys : list (string * PyVal)) {struct xs} : bool :=
         match xs, ys with
         | [], [] => true
         | (k, x) :: xs', (k', y) :: ys' =>
             String.eqb k k' && PyVal_eqb x y && go xs' ys'
         | _, _ => false
         end) xs ys
  | PEdgeAttr l t, PEdgeAttr l' t' => PyVal_eqb l l' && PyVal_eqb t t'
  | _, _ => false
  end.

(** ** Exceptions and the method monad *)

Inductive exn : Type :=
| AttributeError (msg : string)
| TypeError (msg : string)
| RuntimeError (msg : string)
| KeyError (key : PyVal)
| NotImplementedError.

(** The result of a pure call: a value or a raised exception. *)
Inductive Res (A : Type) : Type :=
| Ok (a : A)
| Err (e : exn).
Arguments Ok {A} a.
Arguments Err {A} e.

(** How a method call ends. *)
Inductive Outcome (A : Type) : Type :=
| Return (a : A)
| Raise (e : exn).
Arguments Return {A} a.
Arguments Raise {A} e.

(** A method is a function of the state before the call to its outcome and
    the state after it; a raised exception keeps the state reached so far. *)
Definition M (W A : Type) : Type := W -> Outcome A * W.

Definition ret {W A} (a : A) : M W A := fun w => (Return a, w).
Definition raise {W A} (e : exn) : M W A := fun w => (Raise e, w).
Definition bind {W A B} (m : M W A) (k : A -> M W B) : M W B :=
  fun w =>
    match m w with
    | (Return a, w') => k a w'
    | (Raise e, w') => (Raise e, w')
    end.
Definition lift {W A} (r : Res A) : M W A :=
  match r with
  | Ok a => ret a
  | Err e => raise e
  end.

Declare Scope py_scope.
Delimit Scope py_scope with py.
Notation "x <- m ;; k" := (bind m (fun x => k))
  (at level 61, m at next level, right associativity) : py_scope.
Notation "m ;; k" := (bind m (fun _ => k))
  (at level 61, right associativity) : py_scope.
Open Scope py_scope.

(** Python truth value testing, as used by [not edge_attr.layout].  Enum
    members and dataclass instances define neither [__bool__] nor [__len__]
    and are always true; a tensor has a truth value only when it holds exactly
    one element. *)
Definition truthy (v : PyVal) : Res bool :=
  match v with
  | PNone => Ok false
  | PBool b => Ok b
  | PInt z => Ok (negb (z =? 0))
  | PStr s => Ok (negb (String.eqb s ""))
  | PLayout _ => Ok true
  | PTensor [] =>
      Err (RuntimeError "Boolean value of Tensor with no values is ambiguous")
  | PTensor [x] => Ok (negb (x =? 0))
  | PTensor _ =>
      Err (RuntimeError "Boolean value of Tensor with more than one value is ambiguous")
  | PTuple xs | PList xs => Ok (match xs with [] => false | _ => true end)
  | PDict kvs => Ok (match kvs with [] => false | _ => true end)
  | PEdgeAttr _ _ => Ok true
  end.

(** Attribute access [v.layout]. *)
Definition getattr_layout (v : PyVal) : Res PyVal :=
  match v with
  | PEdgeAttr l _ => Ok l
  | _ => Err (AttributeError "object has no attribute 'layout'")
  end.

(** ** The dataclass [EdgeAttr], lines 20-28 *)

(** Call arguments: [*args] and [**kwargs] (keywords in call order). *)
Definition Args : Type := list PyVal.
Definition Kwargs : Type := list (string * PyVal).

Fixpoint lookup (k : string) (env : Kwargs) : option PyVal :=
  match env with
  | [] => None
  | (k', v) :: env' => if String.eqb k k' then Some v else lookup k env'
  end.

(** The fields of the dataclass in declaration order; both default to
    [None]. *)
Definition EdgeAttr_fields : list string := ["layout"; "edge_type"].

Definition decimal (n : nat) : string := NilEmpty.string_of_uint (Nat.to_uint n).

(** Argument binding of the generated
    [__init__(self, layout=None, edge_type=None)]: positional arguments fill
    the parameters in order, then each keyword must name a parameter that is
    not yet filled, then the number of positional arguments is checked. *)
Fixpoint bind_positional (fields : list string) (args : Args) : Kwargs :=
  match fields, args with
  | f :: fields', a :: args' => (f, a) :: bind_positional fields' args'
  | _, _ => []
  end.

Fixpoint bind_keywords (fields : list string) (bound : Kwargs) (kwargs : Kwargs)
  : Res Kwargs :=
  match kwargs with
  | [] => Ok bound
  | (k, v) :: rest =>
      if negb (existsb (String.eqb k) fields) then
        Err (TypeError ("__init__() got an unexpected keyword argument '" ++ k ++ "'")%string)
      else
        match lookup k bound with
        | Some _ =>
            Err (TypeError ("__init__() got multiple values for argument '" ++ k ++ "'")%string)
        | None => bind_keywords fields (bound ++ [(k, v)]) rest
        end
  end.

Definition bind_arguments (fields : list string) (args : Args) (kwargs : Kwargs)
  : Res Kwargs :=
  match bind_keywords fields (bind_positional fields args) kwargs with
  | Err e => Err e
  | Ok bound =>
      if (List.length fields <? List.length args)%nat then
        Err (TypeError ("__init__() takes from 1 to " ++ decimal (1 + List.length fields)
                        ++ " positional arguments but " ++ decimal (1 + List.length args)
                        ++ " were given")%string)
      else Ok bound
  end.

Definition field_or_None (k : string) (bound : Kwargs) : PyVal :=
  match lookup k bound with
  | Some v => v
  | None => PNone
  end.

(** The constructor call [EdgeAttr] applied to [*args] and [**kwargs]. *)
Definition EdgeAttr_init (args : Args) (kwargs : Kwargs) : Res PyVal :=
  match bind_arguments EdgeAttr_fields args kwargs with
  | Err e => Err e
  | Ok bound =>
      Ok (PEdgeAttr (field_or_None "layout" bound) (field_or_None "edge_type" bound))
  end.

(** An attribute class as [MaterializedGraph.__init__] receives it
    ([edge_attr_cls]): its constructor and its [isinstance] test. *)
Record AttrCls : Type := {
  cls_init : Args -> Kwargs -> Res PyVal;
  cls_isinstance : PyVal -> bool
}.

Definition EdgeAttr : AttrCls := {|
  cls_init := EdgeAttr_init;
  cls_isinstance := fun v => match v with PEdgeAttr _ _ => true | _ => false end
|}.

(** Modelled from the spec: [CastMixin.cast]
    ([torch_geometric/utils/mixin.py]) is imported by the module and is not
    among the sources.  Spec 4.1, key-casting: an operation that accepts a
    loosely typed attribute bundle (positional arguments, partial dict)
    deterministically constructs a full key, filling unspecified fields with
    [None]; casting is pure and total on well-formed input.  [put] and [get]
    take a key, so a value that is already a key is its own cast.  A bundle
    is therefore read as one of: an existing key; one tuple or list of
    positional arguments; one partial dict; the positional and keyword
    arguments of the call.  [bundle_of] makes that reading, [cast] hands the
    result to the constructor of the class. *)
Inductive Bundle : Type :=
| Existing (key : PyVal)
| Construct (args : Args) (kwargs : Kwargs).

Definition bundle_of (cls : AttrCls) (args : Args) (kwargs : Kwargs) : Bundle :=
  match args, kwargs with
  | [elem], [] =>
      if cls_isinstance cls elem then Existing elem
      else
        match elem with
        | PTuple xs | PList xs => Construct xs []
        | PDict d => Construct [] d
        | _ => Construct args kwargs
        end
  | _, _ => Construct args kwargs
  end.

Definition cast (cls : AttrCls) (args : Args) (kwargs : Kwargs) : Res PyVal :=
  match bundle_of cls args kwargs with
  | Existing key => Ok key
  | Construct a k => cls_init cls a k
  end.

(** ** The class [MaterializedGraph], lines 31-125 *)

(** What a method can touch: the attributes that the implementing subclass
    keeps on [self], and the trace of calls made to the sampling routine of
    the external library (the arguments of each call, oldest first). *)
Record World (S : Type) : Type := {
  self_attrs : S;
  sampler_calls : list PyVal
}.
Arguments self_attrs {S} w.
Arguments sampler_calls {S} w.

(** The two abstract methods that a subclass implements, lines 42-45 and
    67-69.  [S] is the type of the subclass's own attributes. *)
Record Impl (S : Type) : Type := {
  _put_edge_index : PyVal -> PyVal -> M (World S) PyVal;
  _get_edge_index : PyVal -> M (World S) PyVal
}.
Arguments _put_edge_index {S} i edge_index edge_attr.
Arguments _get_edge_index {S} i edge_attr.

(** The bodies that the base class gives its abstract methods: both are
    [return None].  A subclass reaches them through [super()]. *)
Definition Abstract (S : Type) : Impl S := {|
  _put_edge_index := fun _ _ => ret PNone;
  _get_edge_index := fun _ => ret PNone
|}.

(** The message of the [AttributeError] of lines 58-60. *)
Definition layout_required : string :=
  "An edge layout is required to store an edge index, but one was not provided.".

(** The error that the specification calls [MissingLayoutError]. *)
Definition MissingLayoutError : exn := AttributeError layout_required.

Section MaterializedGraph.

Context {S : Type}.
(** [self._edge_attr_cls], set once by [__init__] (default [EdgeAttr]). *)
Variable edge_attr_cls : AttrCls.
(** The subclass's hooks. *)
Variable impl : Impl S.

(** Lines 47-65. *)
Definition put_edge_index (edge_index : PyVal) (args : Args) (kwargs : Kwargs)
  : M (World S) PyVal :=
  edge_attr <- lift (cast edge_attr_cls args kwargs) ;;
  layout <- lift (getattr_layout edge_attr) ;;
  has_layout <- lift (truthy layout) ;;
  if negb has_layout then raise (AttributeError layout_required)
  else
    edge_attr' <- lift (cast edge_attr_cls args kwargs) ;;
    _put_edge_index impl edge_index edge_attr'.

(** Lines 71-82. *)
Definition get_edge_index (args : Args) (kwargs : Kwargs) : M (World S) PyVal :=
  edge_attr <- lift (cast edge_attr_cls args kwargs) ;;
  _get_edge_index impl edge_attr.

(** Lines 84-106: the body is [return None]. *)
Definition sample (input_nodes : PyVal) (args : Args) (kwargs : Kwargs)
  : M (World S) PyVal :=
  ret PNone.

(** Lines 110-112. *)
Definition __setitem__ (key value : PyVal) : M (World S) PyVal :=
  key' <- lift (cast edge_attr_cls [key] []) ;;
  put_edge_index value [key'] [] ;;
  ret PNone.

(** Lines 114-116. *)
Definition __getitem__ (key : PyVal) : M (World S) PyVal :=
  key' <- lift (cast edge_attr_cls [key] []) ;;
  get_edge_index [key'] [].

(** Lines 118-125. *)
Definition __delitem__ (key : PyVal) : M (World S) PyVal :=
  raise NotImplementedError.

Definition __iter__ : M (World S) PyVal :=
  raise NotImplementedError.

Definition __len__ : M (World S) PyVal :=
  raise NotImplementedError.

End MaterializedGraph.

(** ** What lies outside the module *)

(** Modelled from the spec: conversion between layouts is done by the
    external tensor library and is not implemented in the repository.  Spec 3:
    COO is a pair of coordinate arrays (row, col); CSR and CSC are a pair
    (index pointer, indices), compressed by row and by column; LIL is one
    adjacency list per row.  [to_coo l v] is the COO form of a value [v] held
    in layout [l]; a value that does not have the shape of its layout is left
    as it is. *)
Fixpoint ptr2ind (i : Z) (ptr : list Z) : list Z :=
  match ptr with
  | a :: ((b :: _) as rest) => (repeat i (Z.to_nat (b - a)) ++ ptr2ind (i + 1) rest)
  | _ => []
  end.

Fixpoint lil2coo (i : Z) (rows : list PyVal) : list Z * list Z :=
  match rows with
  | [] => ([], [])
  | PTensor nbrs :: rest =>
      let (r, c) := lil2coo (i + 1) rest in
      ((repeat i (List.length nbrs) ++ r), (nbrs ++ c))
  | _ :: rest => lil2coo (i + 1) rest
  end.

Definition to_coo (l : EdgeLayout) (v : PyVal) : PyVal :=
  match l, v with
  | CSR, PTuple [PTensor rowptr; PTensor col] =>
      PTuple [PTensor (ptr2ind 0 rowptr); PTensor col]
  | CSC, PTuple [PTensor colptr; PTensor row] =>
      PTuple [PTensor row; PTensor (ptr2ind 0 colptr)]
  | LIL, PList rows =>
      let (r, c) := lil2coo 0 rows in PTuple [PTensor r; PTensor c]
  | _, _ => v
  end.

(** Modelled from the spec: the sampling routine is an external library
    (spec 6: given node ids it returns a sampled subgraph).  [invoke_sampler]
    is a call across that boundary: it returns the routine's output and
    leaves the call on the trace. *)
Definition invoke_sampler {S : Type} (sampler : PyVal -> PyVal) (input_nodes : PyVal)
  : M (World S) PyVal :=
  fun w =>
    (Return (sampler input_nodes),
     {| self_attrs := self_attrs w;
        sampler_calls := (sampler_calls w ++ [input_nodes]) |}).

(** ** A dict-backed subclass

    The smallest subclass that keeps what it is given, used below as a
    concrete implementor:
<<
    class DictGraph(MaterializedGraph):
        def __init__(self):
            super().__init__()
            self.store = {}
        def _put_edge_index(self, edge_index, edge_attr):
            self.store[(edge_attr.layout, edge_attr.edge_type)] = edge_index
            return True
        def _get_edge_index(self, edge_attr):
            return self.store.get((edge_attr.layout, edge_attr.edge_type))
>>
    The dict is an association list in insertion order; assignment to a key
    that is present replaces its value in place. *)
Definition Dict : Type := list (PyVal * PyVal).

Fixpoint dict_get (k : PyVal) (d : Dict) : option PyVal :=
  match d with
  | [] => None
  | (k', v) :: d' => if PyVal_eqb k k' then Some v else dict_get k d'
  end.

Fixpoint dict_set (k v : PyVal) (d : Dict) : Dict :=
  match d with
  | [] => [(k, v)]
  | (k', v') :: d' =>
      if PyVal_eqb k k' then (k', v) :: d' else (k', v') :: dict_set k v d'
  end.

Definition attr_key (edge_attr : PyVal) : Res PyVal :=
  match edge_attr with
  | PEdgeAttr l t => Ok (PTuple [l; t])
  | _ => Err (AttributeError "object has no attribute 'layout'")
  end.

Definition DictGraph : Impl Dict := {|
  _put_edge_index := fun edge_index edge_attr =>
    k <- lift (attr_key edge_attr) ;;
    (fun w => (Return (PBool true),
               {| self_attrs := dict_set k edge_index (self_attrs w);
                  sampler_calls := sampler_calls w |}));
  _get_edge_index := fun edge_attr =>
    k <- lift (attr_key edge_attr) ;;
    (fun w => (Return (match dict_get k (self_attrs w) with
                       | Some v => v
                       | None => PNone
                       end), w))
|}.

(** ** Concrete values *)

(** The edges 0->1 and 1->2 of a graph on three nodes, as COO (row, col) and
    as CSR (rowptr, col). *)
Definition coo_01_12 : PyVal := PTuple [PTensor [0; 1]; PTensor [1; 2]].
Definition csr_01_12 : PyVal := PTuple [PTensor [0; 1; 2; 2]; PTensor [1; 2]].
(** The edges 0->2 and 2->1, as COO and as CSR. *)
Definition coo_02_21 : PyVal := PTuple [PTensor [0; 2]; PTensor [2; 1]].
Definition csr_02_21 : PyVal := PTuple [PTensor [0; 1; 1; 2]; PTensor [2; 1]].

(** A freshly constructed graph: nothing on [self], no call made. *)
Definition fresh {S : Type} (s : S) : World S :=
  {| self_attrs := s; sampler_calls := [] |}.

(** A sampler that returns its seeds and no edges. *)
Definition zero_hop_sampler (input_nodes : PyVal) : PyVal :=
  PTuple [input_nodes; PTensor []; PTensor []].

(** ** Notions used to state the properties *)

(** Well-formed constructor arguments for [EdgeAttr]: no more positional
    arguments than fields, every keyword names a field, no keyword is given
    twice, and no keyword names a field that a positional argument fills. *)
Fixpoint nodupb (ks : list string) : bool :=
  match ks with
  | [] => true
  | k :: ks' => negb (existsb (String.eqb k) ks') && nodupb ks'
  end.

Definition well_formed (args : Args) (kwargs : Kwargs) : bool :=
  (List.length args <=? List.length EdgeAttr_fields)%nat
  && forallb (fun k => existsb (String.eqb k) EdgeAttr_fields) (map fst kwargs)
  && nodupb (map fst kwargs)
  && forallb (fun k => negb (existsb (String.eqb k)
                               (firstn (List.length args) EdgeAttr_fields)))
             (map fst kwargs).

(** The name [k] is not bound yet. *)
Definition unbound (bound : Kwargs) (k : string) : bool :=
  match lookup k bound with
  | None => true
  | Some _ => false
  end.

(** The value that the arguments specify for the field at position [i] named
    [name], [None] if they specify none. *)
Definition given (i : nat) (name : string) (args : Args) (kwargs : Kwargs) : PyVal :=
  match nth_error args i with
  | Some v => v
  | None => match lookup name kwargs with
            | Some v => v
            | None => PNone
            end
  end.

(** A well-formed bundle and the key it denotes. *)
Definition well_formed_bundle (args : Args) (kwargs : Kwargs) : bool :=
  match bundle_of EdgeAttr args kwargs with
  | Existing _ => true
  | Construct a kw => well_formed a kw
  end.

Definition denoted_key (args : Args) (kwargs : Kwargs) : PyVal :=
  match bundle_of EdgeAttr args kwargs with
  | Existing key => key
  | Construct a kw => PEdgeAttr (given 0 "layout" a kw) (given 1 "edge_type" a kw)
  end.

(** [r] is equivalent to [edge_index], held in layout [l], under
    normalization to COO: [r] is the COO form of [edge_index], or [r] is in
    layout [l] as well and has the same COO form. *)
Definition coo_equivalent (l : EdgeLayout) (r edge_index : PyVal) : Prop :=
  r = to_coo l edge_index \/ to_coo l r = to_coo l edge_index.

(** The program [m], run in [w], returns a value equivalent to [edge_index]
    under normalization to COO. *)
Definition returns_coo_equivalent {S : Type} (m : M (World S) PyVal) (w : World S)
           (l : EdgeLayout) (edge_index : PyVal) : Prop :=
  exists r, fst (m w) = Return r /\ coo_equivalent l r edge_index.

(** The program [m], run in [w], returns the COO form of [edge_index]. *)
Definition returns_normalized {S : Type} (m : M (World S) PyVal) (w : World S)
           (l : EdgeLayout) (edge_index : PyVal) : Prop :=
  fst (m w) = Return (to_coo l edge_index).

(** Keys used in the examples. *)
Definition key_coo : PyVal := PEdgeAttr (PLayout COO) PNone.
Definition key_csr : PyVal := PEdgeAttr (PLayout CSR) PNone.

(** ** Lookup of an enum member by value *)

(** The call [EdgeLayout(value)] of the enum class of lines 13-17: the member
    whose value is [value]; [None] stands for the [ValueError] that the call
    raises when no member has that value. *)
Definition EdgeLayout_of_value (value : string) : option EdgeLayout :=
  if String.eqb value "COO" then Some COO
  else if String.eqb value "CSC" then Some CSC
  else if String.eqb value "CSR" then Some CSR
  else if String.eqb value "LIL" then Some LIL
  else None.

(** ** The methods that the class inherits

    Line 31 makes the class a [collections.abc.MutableMapping]; the mixin
    methods of that base class call the five methods that the class defines.
    Their bodies are those of the standard library:
<<
    def __contains__(self, key):
        try:
            self[key]
        except KeyError:
            return False
        else:
            return True

    def get(self, key, default=None):
        try:
            return self[key]
        except KeyError:
            return default

    def pop(self, key, default=__marker):
        try:
            value = self[key]
        except KeyError:
            if default is self.__marker:
                raise
            return default
        else:
            del self[key]
            return value

    def setdefault(self, key, default=None):
        try:
            return self[key]
        except KeyError:
            self[key] = default
        return default
>> *)

Definition is_KeyError (e : exn) : bool :=
  match e with
  | KeyError _ => true
  | _ => false
  end.

(** [try: body / except KeyError: handler / else: orelse]. *)
Definition try_except_KeyError {W A B : Type}
           (body : M W A) (handler : exn -> M W B) (orelse : A -> M W B) : M W B :=
  fun w =>
    match body w with
    | (Return a, w') => orelse a w'
    | (Raise e, w') => if is_KeyError e then handler e w' else (Raise e, w')
    end.

Section MutableMapping.

Context {S : Type}.
Variable edge_attr_cls : AttrCls.
Variable impl : Impl S.

Definition __contains__ (key : PyVal) : M (World S) PyVal :=
  try_except_KeyError (__getitem__ edge_attr_cls impl key)
    (fun _ => ret (PBool false))
    (fun _ => ret (PBool true)).

Definition get (key default : PyVal) : M (World S) PyVal :=
  try_except_KeyError (__getitem__ edge_attr_cls impl key)
    (fun _ => ret default)
    (fun value => ret value).

(** [default] is [None] when the caller gives no default (the marker). *)
Definition pop (key : PyVal) (default : option PyVal) : M (World S) PyVal :=
  try_except_KeyError (__getitem__ edge_attr_cls impl key)
    (fun e => match default with
              | None => raise e
              | Some d => ret d
              end)
    (fun value => __delitem__ key ;; ret value).

Definition setdefault (key default : PyVal) : M (World S) PyVal :=
  try_except_KeyError (__getitem__ edge_attr_cls impl key)
    (fun _ => __setitem__ edge_attr_cls impl key default ;; ret default)
    (fun value => ret value).

End MutableMapping.

(** ** More notions used to state the properties *)

(** Every key of a [DictGraph] store is a (layout, edge type) pair whose
    layout is true. *)
Definition has_layout (k : PyVal) : bool :=
  match k with
  | PTuple [l; _] => match truthy l with
                     | Ok true => true
                     | _ => false
                     end
  | _ => false
  end.

Definition layouts_set (w : World Dict) : Prop :=
  forallb (fun kv => has_layout (fst kv)) (self_attrs w) = true.

(** Layout values other than [None] that Python takes for false, with
    [None] itself at the head.  The list is not exhaustive: the truth test of
    line 57 rejects every false object, also those that lie outside [PyVal]
    (a float zero, an empty set or bytes, an empty range, an object with a
    false [__bool__] or a zero [__len__]). *)
Definition falsy_layouts : list PyVal :=
  [PNone; PBool false; PInt 0; PStr ""; PTensor [0]; PTuple []; PList []; PDict []].

(** An input of [sample] that holds no node: an empty tensor or sequence,
    or an empty dict for a heterogeneous graph. *)
Definition is_empty_input (input_nodes : PyVal) : bool :=
  match input_nodes with
  | PTensor [] | PTuple [] | PList [] | PDict [] => true
  | _ => false
  end.

(** Modelled from the spec: what sampling returns is a sampled subgraph
    (spec 6), held in tensors or in containers of tensors.  A result is empty
    when it holds no node and no edge: an empty tensor, or a tuple, list or
    dict all of whose components are empty.  [None] is not a result that is
    empty but the absence of a result (spec 4.1 and 7: the null/absent
    result). *)
Fixpoint is_empty_result (r : PyVal) : bool :=
  match r with
  | PTensor [] => true
  | PTuple xs | PList xs =>
      (fix all_empty (xs : list PyVal) : bool :=
         match xs with
         | [] => true
         | x :: xs' => is_empty_result x && all_empty xs'
         end) xs
  | PDict kvs =>
      (fix all_empty (kvs : list (string * PyVal)) : bool :=
         match kvs with
         | [] => true
         | (_, x) :: kvs' => is_empty_result x && all_empty kvs'
         end) kvs
  | _ => false
  end.

(** * Properties *)

(** ** The monad *)

Lemma bind_ret_l {W A B} (a : A) (k : A -> M W B) (w : W) :
  bind (ret a) k w = k a w.
Proof. reflexivity. Qed.

Lemma bind_ret_r {W A} (m : M W A) (w : W) :
  bind m ret w = m w.
Proof.
  unfold bind. destruct (m w) as [[a | e] w']; reflexivity.
Qed.

(** An exception ends the sequence and keeps the state it was raised in. *)
Lemma bind_raise_l {W A B} (e : exn) (k : A -> M W B) (w : W) :
  bind (@raise W A e) k w = (Raise e, w).
Proof. reflexivity. Qed.

Lemma bind_assoc {W A B C} (m : M W A) (k : A -> M W B) (h : B -> M W C) (w : W) :
  bind (bind m k) h w = bind m (fun a => bind (k a) h) w.
Proof.
  unfold bind. destruct (m w) as [[a | e] w']; reflexivity.
Qed.

(** A pure call leaves the state alone, whether it returns or raises. *)
Lemma lift_state {W A} (r : Res A) (w : W) : snd (lift r w) = w.
Proof. destruct r; reflexivity. Qed.

(** ** Casting *)

Lemma cast_existing (l t : PyVal) :
  cast EdgeAttr [PEdgeAttr l t] [] = Ok (PEdgeAttr l t).
Proof. reflexivity. Qed.

Lemma EdgeAttr_init_shape args kwargs key :
  EdgeAttr_init args kwargs = Ok key -> exists l t, key = PEdgeAttr l t.
Proof.
  unfold EdgeAttr_init.
  destruct (bind_arguments EdgeAttr_fields args kwargs) as [bound | e]; intros H.
  - injection H as <-. eauto.
  - discriminate.
Qed.

(** Whatever the bundle, a successful cast to [EdgeAttr] is an [EdgeAttr]
    instance. *)
Lemma cast_shape args kwargs key :
  cast EdgeAttr args kwargs = Ok key -> exists l t, key = PEdgeAttr l t.
Proof.
  unfold cast.
  destruct (bundle_of EdgeAttr args kwargs) as [k | a kw] eqn:Hb.
  - intros H. injection H as <-.
    unfold bundle_of in Hb.
    destruct args as [| elem [| ? ?]]; try discriminate.
    destruct kwargs; try discriminate.
    destruct (cls_isinstance EdgeAttr elem) eqn:Hi.
    + injection Hb as <-. destruct elem; try discriminate. eauto.
    + destruct elem; discriminate.
  - apply EdgeAttr_init_shape.
Qed.

(** Casting the result of a cast changes nothing. *)
Lemma cast_idempotent args kwargs key :
  cast EdgeAttr args kwargs = Ok key -> cast EdgeAttr [key] [] = Ok key.
Proof.
  intros H. destruct (cast_shape _ _ _ H) as (l & t & ->). reflexivity.
Qed.

(** ** The wrappers forward to the hooks *)

Section Forwarding.

Context {S : Type} (impl : Impl S).

Lemma put_edge_index_set edge_index args kwargs l t w :
  cast EdgeAttr args kwargs = Ok (PEdgeAttr l t) ->
  truthy l = Ok true ->
  put_edge_index EdgeAttr impl edge_index args kwargs w
  = _put_edge_index impl edge_index (PEdgeAttr l t) w.
Proof.
  intros Hc Ht. unfold put_edge_index, bind.
  rewrite Hc. simpl. rewrite Ht. reflexivity.
Qed.

Lemma put_edge_index_unset edge_index args kwargs l t w :
  cast EdgeAttr args kwargs = Ok (PEdgeAttr l t) ->
  truthy l = Ok false ->
  put_edge_index EdgeAttr impl edge_index args kwargs w
  = (Raise MissingLayoutError, w).
Proof.
  intros Hc Ht. unfold put_edge_index, bind.
  rewrite Hc. simpl. rewrite Ht. reflexivity.
Qed.

Lemma put_edge_index_cast_error edge_index args kwargs e w :
  cast EdgeAttr args kwargs = Err e ->
  put_edge_index EdgeAttr impl edge_index args kwargs w = (Raise e, w).
Proof.
  intros Hc. unfold put_edge_index, bind. rewrite Hc. reflexivity.
Qed.

Lemma get_edge_index_cast args kwargs key w :
  cast EdgeAttr args kwargs = Ok key ->
  get_edge_index EdgeAttr impl args kwargs w = _get_edge_index impl key w.
Proof.
  intros Hc. unfold get_edge_index, bind. rewrite Hc. reflexivity.
Qed.

Lemma get_edge_index_cast_error args kwargs e w :
  cast EdgeAttr args kwargs = Err e ->
  get_edge_index EdgeAttr impl args kwargs w = (Raise e, w).
Proof.
  intros Hc. unfold get_edge_index, bind. rewrite Hc. reflexivity.
Qed.

End Forwarding.

(** ** Argument binding of the dataclass constructor *)

Lemma lookup_app k (b kw : Kwargs) :
  lookup k (b ++ kw) = match lookup k b with
                       | Some v => Some v
                       | None => lookup k kw
                       end.
Proof.
  induction b as [| [k' v'] b IH]; simpl.
  - reflexivity.
  - destruct (String.eqb k k'); [reflexivity | exact IH].
Qed.

(** Keywords that name fields, are distinct and are not yet bound are all
    accepted, in call order. *)
Lemma bind_keywords_ok (fs : list string) (kwargs bound : Kwargs) :
  forallb (fun k => existsb (String.eqb k) fs) (map fst kwargs) = true ->
  nodupb (map fst kwargs) = true ->
  forallb (unbound bound) (map fst kwargs) = true ->
  bind_keywords fs bound kwargs = Ok (bound ++ kwargs).
Proof.
  revert bound.
  induction kwargs as [| [k v] rest IH]; intros bound Hfs Hnd Hub; simpl.
  - now rewrite app_nil_r.
  - simpl in Hfs, Hnd, Hub.
    apply andb_true_iff in Hfs as [Hk Hfs].
    apply andb_true_iff in Hnd as [Hfresh Hnd].
    apply andb_true_iff in Hub as [Hkb Hub].
    rewrite Hk. simpl.
    unfold unbound in Hkb.
    destruct (lookup k bound) eqn:Hl; [discriminate |].
    rewrite (IH (bound ++ [(k, v)]) Hfs Hnd).
    + now rewrite <- app_assoc.
    + apply forallb_forall. intros k' Hin.
      rewrite forallb_forall in Hub. specialize (Hub k' Hin).
      unfold unbound in *. rewrite lookup_app.
      destruct (lookup k' bound); [discriminate |].
      simpl.
      destruct (String.eqb k' k) eqn:Hkk; [| reflexivity].
      apply String.eqb_eq in Hkk. subst k'.
      apply negb_true_iff in Hfresh.
      assert (existsb (String.eqb k) (map fst rest) = true) as Hex.
      { apply existsb_exists. exists k. split; [exact Hin | apply String.eqb_refl]. }
      congruence.
Qed.

(** A name is bound by the positional arguments exactly when it is one of
    the fields they reach. *)
Lemma lookup_bind_positional (fs : list string) (args : Args) (k : string) :
  unbound (bind_positional fs args) k
  = negb (existsb (String.eqb k) (firstn (List.length args) fs)).
Proof.
  unfold unbound. revert args.
  induction fs as [| f fs IH]; intros [| a args]; simpl; try reflexivity.
  destruct (String.eqb k f); simpl; [reflexivity | apply IH].
Qed.

Lemma bind_arguments_ok (args : Args) (kwargs : Kwargs) :
  well_formed args kwargs = true ->
  bind_arguments EdgeAttr_fields args kwargs
  = Ok (bind_positional EdgeAttr_fields args ++ kwargs).
Proof.
  unfold well_formed, bind_arguments. intros H.
  apply andb_true_iff in H as [H Hpos].
  apply andb_true_iff in H as [H Hnd].
  apply andb_true_iff in H as [Hlen Hfs].
  rewrite (bind_keywords_ok _ _ _ Hfs Hnd).
  - apply Nat.leb_le in Hlen.
    destruct (Nat.ltb_spec (List.length EdgeAttr_fields) (List.length args)) as [Hlt | _];
      [lia | reflexivity].
  - apply forallb_forall. intros k Hin.
    rewrite forallb_forall in Hpos.
    rewrite lookup_bind_positional. exact (Hpos k Hin).
Qed.

(** The constructor builds the key that the arguments specify and fills the
    rest with [None]. *)
Lemma EdgeAttr_init_ok (args : Args) (kwargs : Kwargs) :
  well_formed args kwargs = true ->
  EdgeAttr_init args kwargs
  = Ok (PEdgeAttr (given 0 "layout" args kwargs) (given 1 "edge_type" args kwargs)).
Proof.
  intros H. unfold EdgeAttr_init. rewrite (bind_arguments_ok _ _ H).
  unfold field_or_None, given. rewrite !lookup_app.
  destruct args as [| a [| b rest]]; reflexivity.
Qed.

(** Conversely, the constructor accepts well-formed arguments only. *)
Lemma bind_keywords_inv (fs : list string) (kwargs bound result : Kwargs) :
  bind_keywords fs bound kwargs = Ok result ->
  forallb (fun k => existsb (String.eqb k) fs) (map fst kwargs) = true
  /\ nodupb (map fst kwargs) = true
  /\ forallb (unbound bound) (map fst kwargs) = true.
Proof.
  revert bound.
  induction kwargs as [| [k v] rest IH]; intros bound; simpl.
  - auto.
  - destruct (existsb (String.eqb k) fs); simpl; [| discriminate].
    unfold unbound at 1.
    destruct (lookup k bound) eqn:Hl; [discriminate |].
    intros H. destruct (IH _ H) as (Hfs & Hnd & Hub).
    rewrite Hfs, Hnd. simpl.
    rewrite forallb_forall in Hub.
    assert (forall k', In k' (map fst rest) ->
                       String.eqb k' k = false /\ unbound bound k' = true) as Hrest.
    { intros k' Hin. specialize (Hub k' Hin).
      unfold unbound in *. rewrite lookup_app in Hub.
      destruct (lookup k' bound); [discriminate |].
      simpl in Hub. destruct (String.eqb k' k); [discriminate | auto]. }
    repeat split.
    + rewrite andb_true_r. apply negb_true_iff.
      destruct (existsb (String.eqb k) (map fst rest)) eqn:Hex; [| reflexivity].
      apply existsb_exists in Hex as (k' & Hin & Hkk).
      apply String.eqb_eq in Hkk. subst k'.
      destruct (Hrest k Hin) as [Hne _]. rewrite String.eqb_refl in Hne. discriminate.
    + apply forallb_forall. intros k' Hin. apply (Hrest k' Hin).
Qed.

Lemma EdgeAttr_init_well_formed (args : Args) (kwargs : Kwargs) (key : PyVal) :
  EdgeAttr_init args kwargs = Ok key -> well_formed args kwargs = true.
Proof.
  unfold EdgeAttr_init, bind_arguments, well_formed.
  destruct (bind_keywords EdgeAttr_fields (bind_positional EdgeAttr_fields args) kwargs)
    as [bound | e] eqn:Hb; [| discriminate].
  destruct (Nat.ltb_spec (List.length EdgeAttr_fields) (List.length args)) as [| Hlen];
    [discriminate |].
  intros _.
  destruct (bind_keywords_inv _ _ _ _ Hb) as (Hfs & Hnd & Hub).
  rewrite Hfs, Hnd. apply Nat.leb_le in Hlen. rewrite Hlen. simpl.
  apply forallb_forall. intros k Hin.
  rewrite forallb_forall in Hub.
  rewrite <- lookup_bind_positional. exact (Hub k Hin).
Qed.

(** ** The dict-backed subclass *)

Lemma EdgeLayout_eqb_refl (l : EdgeLayout) : EdgeLayout_eqb l l = true.
Proof. destruct l; reflexivity. Qed.

Lemma list_eqb_refl {A : Type} (eqb : A -> A -> bool) (xs : list A) :
  (forall x, eqb x x = true) -> list_eqb eqb xs xs = true.
Proof.
  intros Hrefl. induction xs as [| x xs IH]; simpl.
  - reflexivity.
  - now rewrite Hrefl, IH.
Qed.

Lemma PyVal_eqb_refl : forall v : PyVal, PyVal_eqb v v = true.
Proof.
  fix IH 1.
  intros [| b | z | s | l | d | xs | xs | kvs | l t]; simpl.
  - reflexivity.
  - apply Bool.eqb_reflx.
  - apply Z.eqb_refl.
  - apply String.eqb_refl.
  - apply EdgeLayout_eqb_refl.
  - apply list_eqb_refl, Z.eqb_refl.
  - induction xs as [| x xs IHxs]; [reflexivity |].
    rewrite (IH x). exact IHxs.
  - induction xs as [| x xs IHxs]; [reflexivity |].
    rewrite (IH x). exact IHxs.
  - induction kvs as [| [k x] kvs IHkvs]; [reflexivity |].
    rewrite String.eqb_refl, (IH x). exact IHkvs.
  - now rewrite (IH l), (IH t).
Qed.

Lemma dict_get_set (k v : PyVal) (d : Dict) :
  dict_get k (dict_set k v d) = Some v.
Proof.
  induction d as [| [k' v'] d IH]; simpl.
  - now rewrite PyVal_eqb_refl.
  - destruct (PyVal_eqb k k') eqn:Hk; simpl; rewrite Hk; [reflexivity | exact IH].
Qed.

Lemma DictGraph_put (edge_index l t : PyVal) (w : World Dict) :
  _put_edge_index DictGraph edge_index (PEdgeAttr l t) w
  = (Return (PBool true),
     {| self_attrs := dict_set (PTuple [l; t]) edge_index (self_attrs w);
        sampler_calls := sampler_calls w |}).
Proof. reflexivity. Qed.

Lemma DictGraph_get (l t : PyVal) (w : World Dict) :
  _get_edge_index DictGraph (PEdgeAttr l t) w
  = (Return (match dict_get (PTuple [l; t]) (self_attrs w) with
             | Some v => v
             | None => PNone
             end), w).
Proof. reflexivity. Qed.

(** With [DictGraph] a put followed by a get under the same key returns the
    value as it was stored, whatever the layout, the edge type, the value and
    the state before. *)
Lemma DictGraph_put_then_get (edge_index l t : PyVal) (w : World Dict) :
  truthy l = Ok true ->
  fst ((put_edge_index EdgeAttr DictGraph edge_index [PEdgeAttr l t] [] ;;
        get_edge_index EdgeAttr DictGraph [PEdgeAttr l t] []) w)
  = Return edge_index.
Proof.
  intros Ht. unfold bind.
  rewrite (put_edge_index_set DictGraph _ _ _ _ _ w (cast_existing l t) Ht).
  rewrite DictGraph_put.
  rewrite (get_edge_index_cast DictGraph _ _ _ _ (cast_existing l t)).
  rewrite DictGraph_get. simpl. now rewrite dict_get_set.
Qed.

(** And a second put under the same key replaces the first. *)
Lemma DictGraph_put_twice_then_get (first second l t : PyVal) (w : World Dict) :
  truthy l = Ok true ->
  fst ((put_edge_index EdgeAttr DictGraph first [PEdgeAttr l t] [] ;;
        put_edge_index EdgeAttr DictGraph second [PEdgeAttr l t] [] ;;
        get_edge_index EdgeAttr DictGraph [PEdgeAttr l t] []) w)
  = Return second.
Proof.
  intros Ht. unfold bind.
  rewrite (put_edge_index_set DictGraph _ _ _ _ _ w (cast_existing l t) Ht).
  rewrite DictGraph_put.
  rewrite (put_edge_index_set DictGraph _ _ _ _ _ _ (cast_existing l t) Ht).
  rewrite DictGraph_put.
  rewrite (get_edge_index_cast DictGraph _ _ _ _ (cast_existing l t)).
  rewrite DictGraph_get. simpl. now rewrite dict_get_set.
Qed.

(** ** Storing and retrieving *)

(** C1, as the specification states it, fails on the base class: with the
    bodies that the source gives the two hooks, a put of the COO pair
    [([0, 1], [1, 2])] under the key (COO, None) followed by a get with the
    same key returns [None], which is not equivalent to the pair. *)
Lemma put_then_get_roundtrip_counterexample :
  (put_edge_index EdgeAttr (Abstract unit) coo_01_12 [key_coo] [] ;;
   get_edge_index EdgeAttr (Abstract unit) [key_coo] []) (fresh tt)
  = (Return PNone, fresh tt)
  /\ ~ returns_coo_equivalent
        (put_edge_index EdgeAttr (Abstract unit) coo_01_12 [key_coo] [] ;;
         get_edge_index EdgeAttr (Abstract unit) [key_coo] [])
        (fresh tt) COO coo_01_12.
Proof.
  split; [reflexivity |].
  intros (r & Hr & Heq). cbv in Hr. injection Hr as <-.
  destruct Heq as [H | H]; cbv in H; discriminate.
Qed.

(** C1 (amended): for every edge_index and every key whose layout is set, a
    put followed by a get with the same key is exactly the subclass's
    [_put_edge_index] followed by its [_get_edge_index] on the cast key: same
    returned value, same final state.  The wrappers store and convert nothing
    themselves, so the value returned is equivalent to the stored edge_index
    under normalization to COO exactly when the hooks make it so. *)
Theorem put_then_get_forwards_to_hooks
        {S : Type} (impl : Impl S) (edge_index : PyVal) (args : Args) (kwargs : Kwargs)
        (l : EdgeLayout) (t : PyVal) (w : World S) :
  cast EdgeAttr args kwargs = Ok (PEdgeAttr (PLayout l) t) ->
  (put_edge_index EdgeAttr impl edge_index args kwargs ;;
   get_edge_index EdgeAttr impl args kwargs) w
  = (_put_edge_index impl edge_index (PEdgeAttr (PLayout l) t) ;;
     _get_edge_index impl (PEdgeAttr (PLayout l) t)) w
  /\ (returns_coo_equivalent
        (put_edge_index EdgeAttr impl edge_index args kwargs ;;
         get_edge_index EdgeAttr impl args kwargs) w l edge_index
      <-> returns_coo_equivalent
            (_put_edge_index impl edge_index (PEdgeAttr (PLayout l) t) ;;
             _get_edge_index impl (PEdgeAttr (PLayout l) t)) w l edge_index).
Proof.
  intros Hc.
  assert ((put_edge_index EdgeAttr impl edge_index args kwargs ;;
           get_edge_index EdgeAttr impl args kwargs) w
          = (_put_edge_index impl edge_index (PEdgeAttr (PLayout l) t) ;;
             _get_edge_index impl (PEdgeAttr (PLayout l) t)) w) as Heq.
  { unfold bind.
    rewrite (put_edge_index_set impl _ _ _ _ _ w Hc eq_refl).
    destruct (_put_edge_index impl edge_index (PEdgeAttr (PLayout l) t) w)
      as [[r | e] w']; [| reflexivity].
    apply get_edge_index_cast, Hc. }
  split; [exact Heq |].
  unfold returns_coo_equivalent. rewrite Heq. reflexivity.
Qed.

Lemma put_then_get_forwards_to_hooks_witness :
  cast EdgeAttr [] [("layout", PLayout COO); ("edge_type", PStr "cites")]
  = Ok (PEdgeAttr (PLayout COO) (PStr "cites"))
  /\ returns_coo_equivalent
       (put_edge_index EdgeAttr DictGraph coo_01_12 []
          [("layout", PLayout COO); ("edge_type", PStr "cites")] ;;
        get_edge_index EdgeAttr DictGraph []
          [("layout", PLayout COO); ("edge_type", PStr "cites")])
       (fresh []) COO coo_01_12.
Proof.
  split; [reflexivity |].
  apply (put_then_get_forwards_to_hooks DictGraph coo_01_12 []
           [("layout", PLayout COO); ("edge_type", PStr "cites")]
           COO (PStr "cites") (fresh []) eq_refl).
  exists coo_01_12. split; [reflexivity | left; reflexivity].
Defined.

(** C2: for every subclass, state, edge_index and edge_type, a put whose
    arguments cast to a key with no layout raises the missing-layout error
    and leaves the state as it was; the hooks are not reached. *)
Theorem put_without_layout_raises
        {S : Type} (impl : Impl S) (edge_index : PyVal) (args : Args) (kwargs : Kwargs)
        (t : PyVal) (w : World S) :
  cast EdgeAttr args kwargs = Ok (PEdgeAttr PNone t) ->
  put_edge_index EdgeAttr impl edge_index args kwargs w = (Raise MissingLayoutError, w).
Proof.
  intros Hc. exact (put_edge_index_unset impl _ _ _ _ _ w Hc eq_refl).
Qed.

Lemma put_without_layout_raises_witness :
  cast EdgeAttr [] [("edge_type", PStr "cites")] = Ok (PEdgeAttr PNone (PStr "cites"))
  /\ put_edge_index EdgeAttr DictGraph coo_01_12 [] [("edge_type", PStr "cites")]
       (fresh [(PTuple [PLayout COO; PNone], coo_02_21)])
     = (Raise MissingLayoutError, fresh [(PTuple [PLayout COO; PNone], coo_02_21)]).
Proof.
  split; [reflexivity |].
  apply (put_without_layout_raises DictGraph coo_01_12 [] [("edge_type", PStr "cites")]
           (PStr "cites")).
  reflexivity.
Defined.

(** Every edge_type, [None] included, can be given with no layout: as a key
    object, by keyword, by position, or (for [None]) by giving nothing. *)
Lemma cast_unset_layout (t : PyVal) :
  cast EdgeAttr [PEdgeAttr PNone t] [] = Ok (PEdgeAttr PNone t)
  /\ cast EdgeAttr [] [("edge_type", t)] = Ok (PEdgeAttr PNone t)
  /\ cast EdgeAttr [PNone; t] [] = Ok (PEdgeAttr PNone t)
  /\ cast EdgeAttr [] [] = Ok (PEdgeAttr PNone PNone).
Proof. repeat split. Qed.

(** C3, as the specification states it, fails: no method of the class
    converts a layout.  With the bodies that the source gives the hooks, a get
    after a put of the CSR pair [([0, 1, 2, 2], [1, 2])] under the key
    (CSR, None) returns [None]; with the dict-backed subclass it returns the
    CSR pair as it was stored.  Neither is the COO form [([0, 1], [1, 2])]. *)
Lemma get_normalizes_to_coo_counterexample :
  ~ returns_normalized
      (put_edge_index EdgeAttr (Abstract unit) csr_01_12 [key_csr] [] ;;
       get_edge_index EdgeAttr (Abstract unit) [key_csr] [])
      (fresh tt) CSR csr_01_12
  /\ ~ returns_normalized
         (put_edge_index EdgeAttr DictGraph csr_01_12 [key_csr] [] ;;
          get_edge_index EdgeAttr DictGraph [key_csr] [])
         (fresh []) CSR csr_01_12
  /\ fst ((put_edge_index EdgeAttr DictGraph csr_01_12 [key_csr] [] ;;
           get_edge_index EdgeAttr DictGraph [key_csr] []) (fresh []))
     = Return csr_01_12
  /\ to_coo CSR csr_01_12 = coo_01_12.
Proof.
  repeat split; intros H; cbv in H; discriminate.
Qed.

(** C3 (amended): for every key, get returns exactly what the subclass's
    [_get_edge_index] returns for the cast key, in whatever layout the hook
    produces it, and leaves the state as the hook leaves it; get is
    deterministic: when the hook returns [r] and leaves the state alone, two
    successive calls with the same key both return [r]. *)
Theorem get_returns_hook_value
        {S : Type} (impl : Impl S) (args : Args) (kwargs : Kwargs)
        (key r : PyVal) (w w' : World S) :
  cast EdgeAttr args kwargs = Ok key ->
  _get_edge_index impl key w = (Return r, w') ->
  get_edge_index EdgeAttr impl args kwargs w = (Return r, w')
  /\ (w' = w ->
      (x <- get_edge_index EdgeAttr impl args kwargs ;;
       y <- get_edge_index EdgeAttr impl args kwargs ;;
       ret (x, y)) w = (Return (r, r), w)).
Proof.
  intros Hc Hg.
  assert (get_edge_index EdgeAttr impl args kwargs w = (Return r, w')) as Hget
      by (rewrite (get_edge_index_cast impl _ _ _ w Hc); exact Hg).
  split; [exact Hget |].
  intros ->. unfold bind. rewrite Hget, Hget. reflexivity.
Qed.

Lemma get_returns_hook_value_witness :
  cast EdgeAttr [PTuple [PLayout CSR; PStr "cites"]] []
  = Ok (PEdgeAttr (PLayout CSR) (PStr "cites"))
  /\ get_edge_index EdgeAttr DictGraph [PTuple [PLayout CSR; PStr "cites"]] []
       (fresh [(PTuple [PLayout CSR; PStr "cites"], csr_01_12)])
     = (Return csr_01_12, fresh [(PTuple [PLayout CSR; PStr "cites"], csr_01_12)])
  /\ (x <- get_edge_index EdgeAttr DictGraph [PTuple [PLayout CSR; PStr "cites"]] [] ;;
      y <- get_edge_index EdgeAttr DictGraph [PTuple [PLayout CSR; PStr "cites"]] [] ;;
      ret (x, y)) (fresh [(PTuple [PLayout CSR; PStr "cites"], csr_01_12)])
     = (Return (csr_01_12, csr_01_12),
        fresh [(PTuple [PLayout CSR; PStr "cites"], csr_01_12)]).
Proof.
  split; [reflexivity |].
  destruct (get_returns_hook_value DictGraph [PTuple [PLayout CSR; PStr "cites"]] []
              (PEdgeAttr (PLayout CSR) (PStr "cites")) csr_01_12
              (fresh [(PTuple [PLayout CSR; PStr "cites"], csr_01_12)])
              (fresh [(PTuple [PLayout CSR; PStr "cites"], csr_01_12)])
              eq_refl eq_refl) as [Hget Htwice].
  split; [exact Hget | exact (Htwice eq_refl)].
Defined.

(** C4, as the specification states it, fails on the base class: with the
    bodies that the source gives the hooks, two puts under the key
    (COO, None) followed by a get return [None], not the second value. *)
Lemma put_twice_then_get_counterexample :
  (put_edge_index EdgeAttr (Abstract unit) coo_01_12 [key_coo] [] ;;
   put_edge_index EdgeAttr (Abstract unit) coo_02_21 [key_coo] [] ;;
   get_edge_index EdgeAttr (Abstract unit) [key_coo] []) (fresh tt)
  = (Return PNone, fresh tt)
  /\ ~ returns_coo_equivalent
        (put_edge_index EdgeAttr (Abstract unit) coo_01_12 [key_coo] [] ;;
         put_edge_index EdgeAttr (Abstract unit) coo_02_21 [key_coo] [] ;;
         get_edge_index EdgeAttr (Abstract unit) [key_coo] [])
        (fresh tt) COO coo_02_21.
Proof.
  split; [reflexivity |].
  intros (r & Hr & Heq). cbv in Hr. injection Hr as <-.
  destruct Heq as [H | H]; cbv in H; discriminate.
Qed.

(** C4 (amended): for every key whose layout is set and every two
    edge_index values, two puts under that key followed by a get are exactly
    the subclass's [_put_edge_index] called twice, in order, and its
    [_get_edge_index], all on the same cast key.  The wrappers keep no copy of
    either value, so the get returns only the second value (converted to COO)
    exactly when the hooks overwrite and convert. *)
Theorem put_twice_then_get_forwards_to_hooks
        {S : Type} (impl : Impl S) (first second : PyVal) (args : Args) (kwargs : Kwargs)
        (l : EdgeLayout) (t : PyVal) (w : World S) :
  cast EdgeAttr args kwargs = Ok (PEdgeAttr (PLayout l) t) ->
  (put_edge_index EdgeAttr impl first args kwargs ;;
   put_edge_index EdgeAttr impl second args kwargs ;;
   get_edge_index EdgeAttr impl args kwargs) w
  = (_put_edge_index impl first (PEdgeAttr (PLayout l) t) ;;
     _put_edge_index impl second (PEdgeAttr (PLayout l) t) ;;
     _get_edge_index impl (PEdgeAttr (PLayout l) t)) w
  /\ (returns_coo_equivalent
        (put_edge_index EdgeAttr impl first args kwargs ;;
         put_edge_index EdgeAttr impl second args kwargs ;;
         get_edge_index EdgeAttr impl args kwargs) w l second
      <-> returns_coo_equivalent
            (_put_edge_index impl first (PEdgeAttr (PLayout l) t) ;;
             _put_edge_index impl second (PEdgeAttr (PLayout l) t) ;;
             _get_edge_index impl (PEdgeAttr (PLayout l) t)) w l second).
Proof.
  intros Hc.
  assert ((put_edge_index EdgeAttr impl first args kwargs ;;
           put_edge_index EdgeAttr impl second args kwargs ;;
           get_edge_index EdgeAttr impl args kwargs) w
          = (_put_edge_index impl first (PEdgeAttr (PLayout l) t) ;;
             _put_edge_index impl second (PEdgeAttr (PLayout l) t) ;;
             _get_edge_index impl (PEdgeAttr (PLayout l) t)) w) as Heq.
  { unfold bind.
    rewrite (put_edge_index_set impl _ _ _ _ _ w Hc eq_refl).
    destruct (_put_edge_index impl first (PEdgeAttr (PLayout l) t) w)
      as [[r1 | e1] w1]; [| reflexivity].
    rewrite (put_edge_index_set impl _ _ _ _ _ w1 Hc eq_refl).
    destruct (_put_edge_index impl second (PEdgeAttr (PLayout l) t) w1)
      as [[r2 | e2] w2]; [| reflexivity].
    apply get_edge_index_cast, Hc. }
  split; [exact Heq |].
  unfold returns_coo_equivalent. rewrite Heq. reflexivity.
Qed.

Lemma put_twice_then_get_forwards_to_hooks_witness :
  cast EdgeAttr [PLayout COO] [] = Ok (PEdgeAttr (PLayout COO) PNone)
  /\ returns_coo_equivalent
       (put_edge_index EdgeAttr DictGraph coo_01_12 [PLayout COO] [] ;;
        put_edge_index EdgeAttr DictGraph coo_02_21 [PLayout COO] [] ;;
        get_edge_index EdgeAttr DictGraph [PLayout COO] [])
       (fresh []) COO coo_02_21.
Proof.
  split; [reflexivity |].
  apply (put_twice_then_get_forwards_to_hooks DictGraph coo_01_12 coo_02_21
           [PLayout COO] [] COO PNone (fresh []) eq_refl).
  exists coo_02_21. split; [reflexivity | left; reflexivity].
Defined.

(** C5: for every key, a get on the class as the source defines it (its own
    [_get_edge_index] body, under which nothing is ever inserted) returns
    [None] and raises nothing, in every state; and for every subclass the
    wrapper adds no failure of its own: when the hook answers [None] for the
    cast key, so does get. *)
Theorem get_absent_returns_None
        {S : Type} (impl : Impl S) (args : Args) (kwargs : Kwargs)
        (key : PyVal) (w w' : World S) :
  cast EdgeAttr args kwargs = Ok key ->
  get_edge_index EdgeAttr (Abstract S) args kwargs w = (Return PNone, w)
  /\ (_get_edge_index impl key w = (Return PNone, w') ->
      get_edge_index EdgeAttr impl args kwargs w = (Return PNone, w')).
Proof.
  intros Hc. split.
  - now rewrite (get_edge_index_cast (Abstract S) _ _ _ w Hc).
  - intros Hg. now rewrite (get_edge_index_cast impl _ _ _ w Hc).
Qed.

Lemma get_absent_returns_None_witness :
  cast EdgeAttr [] [("layout", PLayout CSC)] = Ok (PEdgeAttr (PLayout CSC) PNone)
  /\ get_edge_index EdgeAttr (Abstract Dict) [] [("layout", PLayout CSC)]
       (fresh [(PTuple [PLayout COO; PNone], coo_01_12)])
     = (Return PNone, fresh [(PTuple [PLayout COO; PNone], coo_01_12)])
  /\ get_edge_index EdgeAttr DictGraph [] [("layout", PLayout CSC)]
       (fresh [(PTuple [PLayout COO; PNone], coo_01_12)])
     = (Return PNone, fresh [(PTuple [PLayout COO; PNone], coo_01_12)]).
Proof.
  split; [reflexivity |].
  destruct (get_absent_returns_None DictGraph [] [("layout", PLayout CSC)]
              (PEdgeAttr (PLayout CSC) PNone)
              (fresh [(PTuple [PLayout COO; PNone], coo_01_12)])
              (fresh [(PTuple [PLayout COO; PNone], coo_01_12)])
              eq_refl) as [Habs Himpl].
  split; [exact Habs | apply Himpl; reflexivity].
Defined.

(** ** Methods that the class leaves out *)

(** C6: in every state and for every argument, deletion, iteration and the
    length query raise [NotImplementedError] and leave the state as it was. *)
Theorem unimplemented_methods_raise {S : Type} (key : PyVal) (w : World S) :
  __delitem__ key w = (Raise NotImplementedError, w)
  /\ __iter__ w = (Raise NotImplementedError, w)
  /\ __len__ w = (Raise NotImplementedError, w).
Proof. repeat split. Qed.

(** ** Sampling *)

(** C7, as the specification states it, fails: [sample] calls no sampler.
    For the seeds [[0, 1]] and a sampler that returns its seeds and no edges,
    [sample] returns [None], which is not the sampler's output, and the trace
    of sampler calls stays empty where a call would have extended it. *)
Lemma sample_returns_sampler_output_counterexample :
  fst (sample (PTensor [0; 1]) [] [] (fresh tt))
  <> fst (invoke_sampler zero_hop_sampler (PTensor [0; 1]) (fresh tt))
  /\ fst (sample (PTensor [0; 1]) [] [] (fresh tt))
     <> Return (zero_hop_sampler (PTensor [0; 1]))
  /\ sampler_calls (snd (sample (PTensor [0; 1]) [] [] (fresh tt)))
     <> sampler_calls (snd (invoke_sampler zero_hop_sampler (PTensor [0; 1]) (fresh tt))).
Proof. repeat split; intros H; cbv in H; discriminate. Qed.

(** C7 (amended): for every input_nodes argument and any further arguments,
    [sample] returns [None] and changes nothing: the store does no sampling
    itself, and no call to an external sampler is made. *)
Theorem sample_returns_None
        {S : Type} (input_nodes : PyVal) (args : Args) (kwargs : Kwargs) (w : World S) :
  sample input_nodes args kwargs w = (Return PNone, w)
  /\ sampler_calls (snd (sample input_nodes args kwargs w)) = sampler_calls w.
Proof. split; reflexivity. Qed.

(** C8, as the specification states it, fails: called with the empty tensor
    of input nodes, [sample] returns [None], which is no empty result (it is
    what [sample] returns for every input, and differs from the empty
    subgraph that a sampler gives on no seeds). *)
Lemma sample_empty_input_counterexample :
  sample (PTensor []) [] [] (fresh tt) = (Return PNone, fresh tt)
  /\ is_empty_result (zero_hop_sampler (PTensor [])) = true
  /\ fst (sample (PTensor []) [] [] (fresh tt)) <> Return (zero_hop_sampler (PTensor []))
  /\ ~ (exists r, fst (sample (PTensor []) [] [] (fresh tt)) = Return r
                  /\ is_empty_result r = true).
Proof.
  split; [reflexivity |]. split; [reflexivity |]. split.
  - intros H. cbv in H. discriminate.
  - intros (r & Hr & Hempty). cbv in Hr. injection Hr as <-. discriminate.
Qed.

(** C8 (amended): called with an empty sequence of input nodes, [sample]
    returns [None], the same as for any other input and not an empty result,
    and makes no call to the external sampling routine: the state, the trace
    of sampler calls included, is what it was. *)
Theorem sample_on_empty_input_returns_None
        {S : Type} (input_nodes other : PyVal) (args : Args) (kwargs : Kwargs)
        (w : World S) :
  is_empty_input input_nodes = true ->
  sample input_nodes args kwargs w = (Return PNone, w)
  /\ is_empty_result PNone = false
  /\ sample input_nodes args kwargs w = sample other args kwargs w
  /\ sampler_calls (snd (sample input_nodes args kwargs w)) = sampler_calls w.
Proof.
  intros _. repeat split.
Qed.

Lemma sample_on_empty_input_returns_None_witness :
  is_empty_input (PTensor []) = true
  /\ sample (PTensor []) [] [] (fresh tt) = (Return PNone, fresh tt)
  /\ sample (PTensor []) [] [] (fresh tt) = sample (PTensor [0; 1; 2]) [] [] (fresh tt).
Proof.
  split; [reflexivity |].
  destruct (sample_on_empty_input_returns_None (PTensor []) (PTensor [0; 1; 2]) [] []
              (fresh tt) eq_refl) as (Hnone & _ & Hsame & _).
  split; [exact Hnone | exact Hsame].
Defined.

(** ** Key casting *)

(** C9: for every well-formed bundle, casting returns a full key, the one
    that the bundle denotes, with each field that the bundle leaves out set to
    [None]; it never fails; two casts of the same arguments return equal keys;
    and the casting step of put and get is a pure step that leaves the state
    as it was. *)
Theorem cast_total_on_well_formed (args : Args) (kwargs : Kwargs) :
  well_formed_bundle args kwargs = true ->
  cast EdgeAttr args kwargs = Ok (denoted_key args kwargs)
  /\ (exists l t, denoted_key args kwargs = PEdgeAttr l t)
  /\ (forall k1 k2,
        cast EdgeAttr args kwargs = Ok k1 -> cast EdgeAttr args kwargs = Ok k2 -> k1 = k2)
  /\ (forall (S : Type) (w : World S),
        lift (cast EdgeAttr args kwargs) w = (Return (denoted_key args kwargs), w)).
Proof.
  intros Hwf.
  assert (cast EdgeAttr args kwargs = Ok (denoted_key args kwargs)) as Hc.
  { unfold well_formed_bundle in Hwf. unfold cast, denoted_key.
    destruct (bundle_of EdgeAttr args kwargs) as [key | a kw].
    - reflexivity.
    - exact (EdgeAttr_init_ok a kw Hwf). }
  split; [exact Hc |].
  split; [exact (cast_shape _ _ _ Hc) |].
  split.
  - intros k1 k2 H1 H2. congruence.
  - intros S w. rewrite Hc. reflexivity.
Qed.

Lemma cast_total_on_well_formed_witness :
  well_formed_bundle [PLayout CSR] [("edge_type", PStr "cites")] = true
  /\ cast EdgeAttr [PLayout CSR] [("edge_type", PStr "cites")]
     = Ok (PEdgeAttr (PLayout CSR) (PStr "cites")).
Proof.
  split; [reflexivity |].
  exact (proj1 (cast_total_on_well_formed [PLayout CSR] [("edge_type", PStr "cites")]
                  eq_refl)).
Defined.

(** ** Mapping-style access *)

(** The constructor fails with a [TypeError] only, and so does the cast. *)
Lemma bind_keywords_error (fs : list string) (kwargs bound : Kwargs) (e : exn) :
  bind_keywords fs bound kwargs = Err e -> exists msg, e = TypeError msg.
Proof.
  revert bound.
  induction kwargs as [| [k v] rest IH]; intros bound; simpl.
  - discriminate.
  - destruct (negb (existsb (String.eqb k) fs)).
    + intros H. injection H as <-. eauto.
    + destruct (lookup k bound).
      * intros H. injection H as <-. eauto.
      * apply IH.
Qed.

Lemma cast_error (args : Args) (kwargs : Kwargs) (e : exn) :
  cast EdgeAttr args kwargs = Err e -> exists msg, e = TypeError msg.
Proof.
  unfold cast.
  destruct (bundle_of EdgeAttr args kwargs) as [key | a kw]; [discriminate |].
  simpl. unfold EdgeAttr_init, bind_arguments.
  destruct (bind_keywords EdgeAttr_fields (bind_positional EdgeAttr_fields a) kw)
    as [bound | e'] eqn:Hb.
  - destruct (List.length EdgeAttr_fields <? List.length a)%nat.
    + intros H. injection H as <-. eauto.
    + discriminate.
  - intros H. injection H as <-. exact (bind_keywords_error _ _ _ _ Hb).
Qed.

(** C10: for every subclass, key, value and state, [__setitem__(key, value)]
    is [put_edge_index(value, cast(key))] with the returned value dropped, and
    is the same as a put that is handed the key uncast; [__getitem__(key)] is
    [get_edge_index(cast(key))], and the same as a get that is handed the key
    uncast.  In particular, assignment under a key with no layout raises the
    missing-layout error of put and leaves the state as it was, and on the
    class as the source defines it (its own [_get_edge_index] body) access
    returns [None] for every key that casts and never raises [KeyError]. *)
Theorem setitem_getitem_are_put_get
        {S : Type} (impl : Impl S) (key value t : PyVal) (w : World S) :
  __setitem__ EdgeAttr impl key value w
  = (k <- lift (cast EdgeAttr [key] []) ;;
     put_edge_index EdgeAttr impl value [k] [] ;;
     ret PNone) w
  /\ __setitem__ EdgeAttr impl key value w
     = (put_edge_index EdgeAttr impl value [key] [] ;; ret PNone) w
  /\ __getitem__ EdgeAttr impl key w
     = (k <- lift (cast EdgeAttr [key] []) ;; get_edge_index EdgeAttr impl [k] []) w
  /\ __getitem__ EdgeAttr impl key w = get_edge_index EdgeAttr impl [key] [] w
  /\ __setitem__ EdgeAttr impl (PEdgeAttr PNone t) value w
     = (Raise MissingLayoutError, w)
  /\ put_edge_index EdgeAttr impl value [PEdgeAttr PNone t] [] w
     = (Raise MissingLayoutError, w)
  /\ __setitem__ EdgeAttr impl (PDict [("edge_type", t)]) value w
     = (Raise MissingLayoutError, w)
  /\ __getitem__ EdgeAttr (Abstract S) key w
     = match cast EdgeAttr [key] [] with
       | Ok _ => (Return PNone, w)
       | Err e => (Raise e, w)
       end
  /\ (forall k, fst (__getitem__ EdgeAttr (Abstract S) key w) <> Raise (KeyError k)).
Proof.
  assert (__setitem__ EdgeAttr impl key value w
          = (put_edge_index EdgeAttr impl value [key] [] ;; ret PNone) w) as Hset.
  { unfold __setitem__, bind.
    destruct (cast EdgeAttr [key] []) as [k | e] eqn:Hc; simpl.
    - destruct (cast_shape _ _ _ Hc) as (l & t' & ->).
      destruct (truthy l) as [[|] | e] eqn:Ht.
      + rewrite (put_edge_index_set impl _ _ _ _ _ w (cast_existing l t') Ht).
        rewrite (put_edge_index_set impl _ _ _ _ _ w Hc Ht).
        reflexivity.
      + rewrite (put_edge_index_unset impl _ _ _ _ _ w (cast_existing l t') Ht).
        rewrite (put_edge_index_unset impl _ _ _ _ _ w Hc Ht).
        reflexivity.
      + unfold put_edge_index, bind. rewrite Hc. simpl. rewrite Ht. reflexivity.
    - rewrite (put_edge_index_cast_error impl _ _ _ _ w Hc). reflexivity. }
  assert (__getitem__ EdgeAttr impl key w = get_edge_index EdgeAttr impl [key] [] w)
    as Hget.
  { unfold __getitem__, bind.
    destruct (cast EdgeAttr [key] []) as [k | e] eqn:Hc; simpl.
    - rewrite (get_edge_index_cast impl _ _ _ w (cast_idempotent _ _ _ Hc)).
      rewrite (get_edge_index_cast impl _ _ _ w Hc). reflexivity.
    - rewrite (get_edge_index_cast_error impl _ _ _ w Hc). reflexivity. }
  assert (__getitem__ EdgeAttr (Abstract S) key w
          = match cast EdgeAttr [key] [] with
            | Ok _ => (Return PNone, w)
            | Err e => (Raise e, w)
            end) as Habs.
  { unfold __getitem__, bind.
    destruct (cast EdgeAttr [key] []) as [k | e] eqn:Hc; simpl.
    - now rewrite (get_edge_index_cast (Abstract S) _ _ _ w (cast_idempotent _ _ _ Hc)).
    - reflexivity. }
  repeat split; try reflexivity; try assumption.
  intros k. rewrite Habs.
  destruct (cast EdgeAttr [key] []) as [k' | e] eqn:Hc; simpl.
  - discriminate.
  - destruct (cast_error _ _ _ Hc) as (msg & ->). discriminate.
Qed.


(** * Further properties of the module *)

(** ** The enum *)

(** X1: the four members of [EdgeLayout] have pairwise distinct values, so
    lookup by value inverts [.value]: it finds the member a value came from,
    and what it finds has the value looked up. *)
Theorem EdgeLayout_value_roundtrip :
  (forall l, EdgeLayout_of_value (EdgeLayout_value l) = Some l)
  /\ (forall value l, EdgeLayout_of_value value = Some l -> EdgeLayout_value l = value)
  /\ (forall a b, EdgeLayout_value a = EdgeLayout_value b -> a = b).
Proof.
  assert (forall l, EdgeLayout_of_value (EdgeLayout_value l) = Some l) as Hround
      by (intros []; reflexivity).
  split; [exact Hround |]. split.
  - intros value l. unfold EdgeLayout_of_value.
    destruct (String.eqb_spec value "COO") as [-> |]; [now intros [= <-] |].
    destruct (String.eqb_spec value "CSC") as [-> |]; [now intros [= <-] |].
    destruct (String.eqb_spec value "CSR") as [-> |]; [now intros [= <-] |].
    destruct (String.eqb_spec value "LIL") as [-> |]; [now intros [= <-] |].
    discriminate.
  - intros a b Heq.
    assert (Some a = Some b) as H by (rewrite <- (Hround a), Heq; apply Hround).
    now injection H.
Qed.

(** ** The constructor of [EdgeAttr] *)

Lemma EdgeAttr_init_error (args : Args) (kwargs : Kwargs) (e : exn) :
  EdgeAttr_init args kwargs = Err e -> exists msg, e = TypeError msg.
Proof.
  unfold EdgeAttr_init, bind_arguments.
  destruct (bind_keywords EdgeAttr_fields (bind_positional EdgeAttr_fields args) kwargs)
    as [bound | e'] eqn:Hb.
  - destruct (List.length EdgeAttr_fields <? List.length args)%nat.
    + intros H. injection H as <-. eauto.
    + discriminate.
  - intros H. injection H as <-. exact (bind_keywords_error _ _ _ _ Hb).
Qed.

(** X2: the constructor of [EdgeAttr] returns an instance exactly when its
    arguments are well-formed (at most two positional arguments, keywords
    among [layout] and [edge_type], none given twice or also by position);
    on any other arguments it raises, and what it raises is a [TypeError]. *)
Theorem EdgeAttr_init_accepts_iff_well_formed (args : Args) (kwargs : Kwargs) :
  ((exists key, EdgeAttr_init args kwargs = Ok key) <-> well_formed args kwargs = true)
  /\ ((exists msg, EdgeAttr_init args kwargs = Err (TypeError msg))
      <-> well_formed args kwargs = false).
Proof.
  split; split.
  - intros (key & H). exact (EdgeAttr_init_well_formed _ _ _ H).
  - intros H. eexists. exact (EdgeAttr_init_ok _ _ H).
  - intros (msg & H).
    destruct (well_formed args kwargs) eqn:Hwf; [| reflexivity].
    rewrite (EdgeAttr_init_ok _ _ Hwf) in H. discriminate.
  - intros Hwf.
    destruct (EdgeAttr_init args kwargs) as [key | e] eqn:H.
    + rewrite (EdgeAttr_init_well_formed _ _ _ H) in Hwf. discriminate.
    + destruct (EdgeAttr_init_error _ _ _ H) as (msg & ->). eauto.
Qed.

Lemma nodupb_NoDup (ks : list string) : nodupb ks = true <-> NoDup ks.
Proof.
  induction ks as [| k ks IH]; simpl.
  - split; [constructor | reflexivity].
  - rewrite andb_true_iff, negb_true_iff, IH. split.
    + intros [Hk Hnd]. constructor; [| exact Hnd].
      intros Hin.
      assert (existsb (String.eqb k) ks = true) as Hex
          by (apply existsb_exists; exists k; split; [exact Hin | apply String.eqb_refl]).
      congruence.
    + intros Hnd. inversion Hnd as [| ? ? Hnin Hnd']; subst. split; [| exact Hnd'].
      destruct (existsb (String.eqb k) ks) eqn:Hex; [| reflexivity].
      apply existsb_exists in Hex as (k' & Hin & Hkk).
      apply String.eqb_eq in Hkk. subst k'. contradiction.
Qed.

Lemma lookup_In (k : string) (kw : Kwargs) (v : PyVal) :
  lookup k kw = Some v -> In k (map fst kw).
Proof.
  induction kw as [| [k' v'] kw IH]; simpl; [discriminate |].
  destruct (String.eqb_spec k k') as [-> | _]; [auto | intros H; right; auto].
Qed.

(** With distinct keywords, a lookup does not depend on their order. *)
Lemma lookup_Permutation (k : string) (kw kw' : Kwargs) :
  Permutation kw kw' -> NoDup (map fst kw) -> lookup k kw = lookup k kw'.
Proof.
  induction 1 as [| [k1 v1] l l' Hp IH | [k1 v1] [k2 v2] l | l l' l'' Hp1 IH1 Hp2 IH2];
    intros Hnd; simpl in *.
  - reflexivity.
  - inversion Hnd; subst. now rewrite IH.
  - destruct (String.eqb_spec k k1) as [H1 | _];
      destruct (String.eqb_spec k k2) as [H2 | _]; try reflexivity.
    inversion Hnd as [| ? ? Hnin _]; subst. exfalso. apply Hnin. now left.
  - rewrite IH1 by exact Hnd. apply IH2.
    apply (Permutation_NoDup (Permutation_map fst Hp1) Hnd).
Qed.

Lemma forallb_Permutation {A : Type} (f : A -> bool) (l l' : list A) :
  Permutation l l' -> forallb f l = true -> forallb f l' = true.
Proof.
  intros Hp H. apply forallb_forall. intros x Hin.
  rewrite forallb_forall in H. apply H.
  apply (Permutation_in x (Permutation_sym Hp) Hin).
Qed.

Lemma well_formed_Permutation (args : Args) (kw kw' : Kwargs) :
  Permutation kw kw' -> well_formed args kw = true -> well_formed args kw' = true.
Proof.
  intros Hp. pose proof (Permutation_map fst Hp) as Hpk.
  unfold well_formed. rewrite !andb_true_iff.
  intros [[[Hlen Hfs] Hnd] Hpos]. repeat split.
  - exact Hlen.
  - exact (forallb_Permutation _ _ _ Hpk Hfs).
  - apply nodupb_NoDup. apply nodupb_NoDup in Hnd.
    exact (Permutation_NoDup Hpk Hnd).
  - exact (forallb_Permutation _ _ _ Hpk Hpos).
Qed.

(** X3: the order of the keywords does not matter to the constructor: when
    a call returns an instance, the call with the same keywords in any other
    order returns the same instance. *)
Theorem EdgeAttr_init_keyword_order
        (args : Args) (kw kw' : Kwargs) (key : PyVal) :
  Permutation kw kw' ->
  EdgeAttr_init args kw = Ok key ->
  EdgeAttr_init args kw' = Ok key.
Proof.
  intros Hp Hinit.
  pose proof (EdgeAttr_init_well_formed _ _ _ Hinit) as Hwf.
  rewrite (EdgeAttr_init_ok _ _ Hwf) in Hinit. injection Hinit as <-.
  rewrite (EdgeAttr_init_ok _ _ (well_formed_Permutation _ _ _ Hp Hwf)).
  assert (NoDup (map fst kw)) as Hnd.
  { unfold well_formed in Hwf. rewrite !andb_true_iff in Hwf.
    apply nodupb_NoDup. tauto. }
  unfold given.
  now rewrite <- !(lookup_Permutation _ _ _ Hp Hnd).
Qed.

Lemma EdgeAttr_init_keyword_order_witness :
  EdgeAttr_init [] [("edge_type", PStr "cites"); ("layout", PLayout CSC)]
  = Ok (PEdgeAttr (PLayout CSC) (PStr "cites")).
Proof.
  apply (EdgeAttr_init_keyword_order []
           [("layout", PLayout CSC); ("edge_type", PStr "cites")]
           [("edge_type", PStr "cites"); ("layout", PLayout CSC)]).
  - apply perm_swap.
  - reflexivity.
Defined.

Lemma not_positional_not_keyword (f : string) (fs names : list string) :
  forallb (fun k => negb (existsb (String.eqb k) fs)) names = true ->
  In f fs ->
  existsb (String.eqb f) names = false.
Proof.
  intros Hall Hin.
  destruct (existsb (String.eqb f) names) eqn:Hex; [| reflexivity].
  apply existsb_exists in Hex as (k & Hk & Hfk).
  apply String.eqb_eq in Hfk. subst k.
  rewrite forallb_forall in Hall. specialize (Hall f Hk).
  apply negb_true_iff in Hall.
  assert (existsb (String.eqb f) fs = true) as Hfs
      by (apply existsb_exists; exists f; split; [exact Hin | apply String.eqb_refl]).
  congruence.
Qed.

(** X4: an argument given by position can be given by keyword instead:
    when a call returns an instance, the call that passes its last positional
    argument under the name of the field it fills returns the same
    instance. *)
Theorem EdgeAttr_init_positional_as_keyword
        (args : Args) (v : PyVal) (kw : Kwargs) (f : string) (key : PyVal) :
  nth_error EdgeAttr_fields (List.length args) = Some f ->
  EdgeAttr_init (args ++ [v]) kw = Ok key ->
  EdgeAttr_init args ((f, v) :: kw) = Ok key.
Proof.
  intros Hf Hinit.
  pose proof (EdgeAttr_init_well_formed _ _ _ Hinit) as Hwf.
  rewrite (EdgeAttr_init_ok _ _ Hwf) in Hinit. injection Hinit as <-.
  unfold well_formed in Hwf. rewrite !andb_true_iff in Hwf.
  destruct Hwf as [[[Hlen Hfs] Hnd] Hpos].
  destruct args as [| x [| y rest]]; simpl in Hf;
    [| | destruct (List.length rest); discriminate];
    injection Hf as <-; simpl in Hpos.
  - pose proof (not_positional_not_keyword "layout" ["layout"] _ Hpos (or_introl eq_refl))
      as Hfresh.
    rewrite EdgeAttr_init_ok.
    + reflexivity.
    + unfold well_formed.
      change (map fst (("layout", v) :: kw)) with ("layout" :: map fst kw).
      cbn [forallb nodupb]. rewrite Hfs, Hnd, Hfresh. simpl.
      apply forallb_forall. reflexivity.
  - pose proof (not_positional_not_keyword "edge_type" ["layout"; "edge_type"] _ Hpos
                  (or_intror (or_introl eq_refl))) as Hfresh.
    rewrite EdgeAttr_init_ok.
    + reflexivity.
    + unfold well_formed.
      change (map fst (("edge_type", v) :: kw)) with ("edge_type" :: map fst kw).
      cbn [forallb nodupb]. rewrite Hfs, Hnd, Hfresh. simpl.
      apply forallb_forall. intros k Hk.
      rewrite forallb_forall in Hpos. specialize (Hpos k Hk).
      rewrite negb_true_iff in *. simpl in *.
      apply orb_false_iff in Hpos as [Hl _]. now rewrite Hl.
Qed.

Lemma EdgeAttr_init_positional_as_keyword_witness :
  EdgeAttr_init [PLayout CSR] [("edge_type", PStr "cites")]
  = Ok (PEdgeAttr (PLayout CSR) (PStr "cites")).
Proof.
  apply (EdgeAttr_init_positional_as_keyword [PLayout CSR] (PStr "cites") [] "edge_type");
    reflexivity.
Defined.

(** ** What reaches the hooks *)

Lemma falsy_layouts_are_false (l : PyVal) : In l falsy_layouts -> truthy l = Ok false.
Proof.
  simpl. intros H.
  repeat (destruct H as [<- | H]; [reflexivity |]). contradiction.
Qed.

Section Mapping.

Context {S : Type} (impl : Impl S).

Lemma getitem_as_hook key k w :
  cast EdgeAttr [key] [] = Ok k ->
  __getitem__ EdgeAttr impl key w = _get_edge_index impl k w.
Proof.
  intros Hc. unfold __getitem__, bind. rewrite Hc. simpl.
  apply get_edge_index_cast. exact (cast_idempotent _ _ _ Hc).
Qed.

Lemma getitem_cast_error key e w :
  cast EdgeAttr [key] [] = Err e ->
  __getitem__ EdgeAttr impl key w = (Raise e, w).
Proof.
  intros Hc. unfold __getitem__, bind. now rewrite Hc.
Qed.

Lemma setitem_as_hook key value l t w :
  cast EdgeAttr [key] [] = Ok (PEdgeAttr l t) ->
  truthy l = Ok true ->
  __setitem__ EdgeAttr impl key value w
  = (_put_edge_index impl value (PEdgeAttr l t) ;; ret PNone) w.
Proof.
  intros Hc Ht. unfold __setitem__, bind. rewrite Hc. simpl.
  now rewrite (put_edge_index_set impl _ _ _ _ _ w (cast_existing l t) Ht).
Qed.

Lemma setitem_not_set key value l t w :
  cast EdgeAttr [key] [] = Ok (PEdgeAttr l t) ->
  truthy l <> Ok true ->
  exists e, __setitem__ EdgeAttr impl key value w = (Raise e, w).
Proof.
  intros Hc Ht. unfold __setitem__, put_edge_index, bind. rewrite Hc. simpl.
  destruct (truthy l) as [[|] | e]; simpl; [contradiction | eauto | eauto].
Qed.

Lemma setitem_cast_error key value e w :
  cast EdgeAttr [key] [] = Err e ->
  __setitem__ EdgeAttr impl key value w = (Raise e, w).
Proof.
  intros Hc. unfold __setitem__, bind. now rewrite Hc.
Qed.

End Mapping.

(** X5: whatever the attribute class and the subclass, [put_edge_index]
    either calls [_put_edge_index] once, with the edge_index it was given and
    the cast key, whose layout is then true, and ends as that call ends; or it
    raises and leaves the state as it was, and then the arguments do not cast
    to a key with a true layout.  No key without a layout reaches the hook. *)
Theorem put_edge_index_reaches_hook_only_with_layout
        {S : Type} (cls : AttrCls) (impl : Impl S)
        (edge_index : PyVal) (args : Args) (kwargs : Kwargs) (w : World S) :
  (exists k l,
      cast cls args kwargs = Ok k /\ getattr_layout k = Ok l /\ truthy l = Ok true
      /\ put_edge_index cls impl edge_index args kwargs w
         = _put_edge_index impl edge_index k w)
  \/ (exists err,
         put_edge_index cls impl edge_index args kwargs w = (Raise err, w)
         /\ forall k l, cast cls args kwargs = Ok k -> getattr_layout k = Ok l ->
                        truthy l <> Ok true).
Proof.
  unfold put_edge_index, bind.
  destruct (cast cls args kwargs) as [k | e]; simpl.
  - destruct (getattr_layout k) as [l | e] eqn:Hl; simpl.
    + destruct (truthy l) as [[|] | e] eqn:Ht; simpl.
      * left. exists k, l. repeat split; assumption || reflexivity.
      * right. eexists. split; [reflexivity |].
        intros k' l' [= <-] Hl'. rewrite Hl in Hl'. injection Hl' as <-. congruence.
      * right. eexists. split; [reflexivity |].
        intros k' l' [= <-] Hl'. rewrite Hl in Hl'. injection Hl' as <-. congruence.
    + right. eexists. split; [reflexivity |].
      intros k' l' [= <-] Hl'. congruence.
  - right. eexists. split; [reflexivity |]. discriminate.
Qed.

(** X6: the layout test of [put_edge_index] is a truth test, not a test for
    [None]: a layout of [False], [0], the empty string, a tensor holding a
    single zero, or an empty tuple, list or dict raises the layout-required
    error just as [None] does, in every subclass, before the hook is called,
    and leaves the state as it was. *)
Theorem put_edge_index_falsy_layout
        {S : Type} (impl : Impl S) (edge_index l t : PyVal) (w : World S) :
  In l falsy_layouts ->
  put_edge_index EdgeAttr impl edge_index [PEdgeAttr l t] [] w
  = (Raise MissingLayoutError, w).
Proof.
  intros Hin.
  exact (put_edge_index_unset impl _ _ _ _ _ w (cast_existing l t)
           (falsy_layouts_are_false l Hin)).
Qed.

Lemma put_edge_index_falsy_layout_witness :
  In (PInt 0) falsy_layouts
  /\ put_edge_index EdgeAttr DictGraph coo_01_12 [PEdgeAttr (PInt 0) (PStr "cites")] []
       (fresh [])
     = (Raise MissingLayoutError, fresh []).
Proof.
  assert (In (PInt 0) falsy_layouts) as Hin by (simpl; auto).
  split; [exact Hin |].
  exact (put_edge_index_falsy_layout DictGraph coo_01_12 (PInt 0) (PStr "cites")
           (fresh []) Hin).
Defined.

(** X7: [get_edge_index] asks for no layout: arguments that cast to a key
    whose layout is false are handed to [_get_edge_index] all the same, where
    [put_edge_index] refuses them. *)
Theorem get_edge_index_needs_no_layout
        {S : Type} (impl : Impl S) (edge_index : PyVal) (args : Args) (kwargs : Kwargs)
        (l t : PyVal) (w : World S) :
  cast EdgeAttr args kwargs = Ok (PEdgeAttr l t) ->
  truthy l = Ok false ->
  get_edge_index EdgeAttr impl args kwargs w = _get_edge_index impl (PEdgeAttr l t) w
  /\ put_edge_index EdgeAttr impl edge_index args kwargs w = (Raise MissingLayoutError, w).
Proof.
  intros Hc Ht. split.
  - exact (get_edge_index_cast impl _ _ _ w Hc).
  - exact (put_edge_index_unset impl _ _ _ _ _ w Hc Ht).
Qed.

Lemma get_edge_index_needs_no_layout_witness :
  get_edge_index EdgeAttr DictGraph [] [("edge_type", PStr "cites")]
    (fresh [(PTuple [PLayout COO; PStr "cites"], coo_01_12)])
  = (Return PNone, fresh [(PTuple [PLayout COO; PStr "cites"], coo_01_12)])
  /\ put_edge_index EdgeAttr DictGraph coo_02_21 [] [("edge_type", PStr "cites")]
       (fresh [(PTuple [PLayout COO; PStr "cites"], coo_01_12)])
     = (Raise MissingLayoutError, fresh [(PTuple [PLayout COO; PStr "cites"], coo_01_12)]).
Proof.
  exact (get_edge_index_needs_no_layout DictGraph coo_02_21 []
           [("edge_type", PStr "cites")] PNone (PStr "cites")
           (fresh [(PTuple [PLayout COO; PStr "cites"], coo_01_12)]) eq_refl eq_refl).
Defined.

(** X8: a key that does not cast fails the same way at every entry point:
    [put_edge_index], [get_edge_index], [__setitem__] and [__getitem__] all
    raise the error of the cast, a [TypeError], before any hook is called, and
    leave the state as it was. *)
Theorem malformed_key_raises_everywhere
        {S : Type} (impl : Impl S) (key value : PyVal) (err : exn) (w : World S) :
  cast EdgeAttr [key] [] = Err err ->
  put_edge_index EdgeAttr impl value [key] [] w = (Raise err, w)
  /\ get_edge_index EdgeAttr impl [key] [] w = (Raise err, w)
  /\ __setitem__ EdgeAttr impl key value w = (Raise err, w)
  /\ __getitem__ EdgeAttr impl key w = (Raise err, w)
  /\ exists msg, err = TypeError msg.
Proof.
  intros Hc. repeat split.
  - exact (put_edge_index_cast_error impl _ _ _ _ w Hc).
  - exact (get_edge_index_cast_error impl _ _ _ w Hc).
  - exact (setitem_cast_error impl _ _ _ w Hc).
  - exact (getitem_cast_error impl _ _ w Hc).
  - exact (cast_error _ _ _ Hc).
Qed.

Lemma malformed_key_raises_everywhere_witness :
  __setitem__ EdgeAttr DictGraph (PDict [("layout", PLayout COO); ("type", PStr "cites")])
    coo_01_12 (fresh [])
  = (Raise (TypeError "__init__() got an unexpected keyword argument 'type'"), fresh []).
Proof.
  exact (proj1 (proj2 (proj2
    (malformed_key_raises_everywhere DictGraph
       (PDict [("layout", PLayout COO); ("type", PStr "cites")]) coo_01_12
       (TypeError "__init__() got an unexpected keyword argument 'type'")
       (fresh []) eq_refl)))).
Defined.

(** X9: assignment followed by access under a key whose layout is true is
    [_put_edge_index] followed by [_get_edge_index] on the cast key, whatever
    form the key is given in (a key object, a tuple, a dict): same returned
    value, same final state. *)
Theorem setitem_then_getitem_forwards_to_hooks
        {S : Type} (impl : Impl S) (key value l t : PyVal) (w : World S) :
  cast EdgeAttr [key] [] = Ok (PEdgeAttr l t) ->
  truthy l = Ok true ->
  (__setitem__ EdgeAttr impl key value ;; __getitem__ EdgeAttr impl key) w
  = (_put_edge_index impl value (PEdgeAttr l t) ;;
     _get_edge_index impl (PEdgeAttr l t)) w.
Proof.
  intros Hc Ht. unfold bind at 1.
  rewrite (setitem_as_hook impl _ _ _ _ w Hc Ht). unfold bind.
  destruct (_put_edge_index impl value (PEdgeAttr l t) w) as [[r | e] w'];
    [| reflexivity].
  simpl. exact (getitem_as_hook impl _ _ w' Hc).
Qed.

Lemma setitem_then_getitem_forwards_to_hooks_witness :
  (__setitem__ EdgeAttr DictGraph (PTuple [PLayout CSR; PStr "cites"]) csr_01_12 ;;
   __getitem__ EdgeAttr DictGraph (PTuple [PLayout CSR; PStr "cites"])) (fresh [])
  = (Return csr_01_12, fresh [(PTuple [PLayout CSR; PStr "cites"], csr_01_12)]).
Proof.
  exact (setitem_then_getitem_forwards_to_hooks DictGraph
           (PTuple [PLayout CSR; PStr "cites"]) csr_01_12 (PLayout CSR) (PStr "cites")
           (fresh []) eq_refl eq_refl).
Defined.


(** ** Invariants of the state *)

Section Invariant.

Context {S : Type} (impl : Impl S) (I : World S -> Prop).

Hypothesis put_hook_keeps :
  forall edge_index l t w,
    truthy l = Ok true -> I w -> I (snd (_put_edge_index impl edge_index (PEdgeAttr l t) w)).
Hypothesis get_hook_keeps :
  forall l t w, I w -> I (snd (_get_edge_index impl (PEdgeAttr l t) w)).

Lemma put_edge_index_keeps edge_index args kwargs w :
  I w -> I (snd (put_edge_index EdgeAttr impl edge_index args kwargs w)).
Proof.
  intros Hw. unfold put_edge_index, bind.
  destruct (cast EdgeAttr args kwargs) as [k | e] eqn:Hc; simpl; [| exact Hw].
  destruct (cast_shape _ _ _ Hc) as (l & t & ->). simpl.
  destruct (truthy l) as [[|] | e] eqn:Ht; simpl; try exact Hw.
  exact (put_hook_keeps edge_index l t w Ht Hw).
Qed.

Lemma get_edge_index_keeps args kwargs w :
  I w -> I (snd (get_edge_index EdgeAttr impl args kwargs w)).
Proof.
  intros Hw. unfold get_edge_index, bind.
  destruct (cast EdgeAttr args kwargs) as [k | e] eqn:Hc; simpl; [| exact Hw].
  destruct (cast_shape _ _ _ Hc) as (l & t & ->).
  exact (get_hook_keeps l t w Hw).
Qed.

Lemma setitem_keeps key value w :
  I w -> I (snd (__setitem__ EdgeAttr impl key value w)).
Proof.
  intros Hw. unfold __setitem__, bind.
  destruct (cast EdgeAttr [key] []) as [k | e]; simpl; [| exact Hw].
  pose proof (put_edge_index_keeps value [k] [] w Hw) as Hput.
  destruct (put_edge_index EdgeAttr impl value [k] [] w) as [[r | e] w']; exact Hput.
Qed.

Lemma getitem_keeps key w :
  I w -> I (snd (__getitem__ EdgeAttr impl key w)).
Proof.
  intros Hw. unfold __getitem__, bind.
  destruct (cast EdgeAttr [key] []) as [k | e]; simpl; [| exact Hw].
  exact (get_edge_index_keeps [k] [] w Hw).
Qed.

Lemma contains_keeps key w :
  I w -> I (snd (__contains__ EdgeAttr impl key w)).
Proof.
  intros Hw. unfold __contains__, try_except_KeyError.
  pose proof (getitem_keeps key w Hw) as Hget.
  destruct (__getitem__ EdgeAttr impl key w) as [[r | e] w']; simpl in *.
  - exact Hget.
  - destruct (is_KeyError e); exact Hget.
Qed.

Lemma mapping_get_keeps key default w :
  I w -> I (snd (get EdgeAttr impl key default w)).
Proof.
  intros Hw. unfold get, try_except_KeyError.
  pose proof (getitem_keeps key w Hw) as Hget.
  destruct (__getitem__ EdgeAttr impl key w) as [[r | e] w']; simpl in *.
  - exact Hget.
  - destruct (is_KeyError e); exact Hget.
Qed.

Lemma pop_keeps key default w :
  I w -> I (snd (pop EdgeAttr impl key default w)).
Proof.
  intros Hw. unfold pop, try_except_KeyError.
  pose proof (getitem_keeps key w Hw) as Hget.
  destruct (__getitem__ EdgeAttr impl key w) as [[r | e] w']; simpl in *.
  - exact Hget.
  - destruct (is_KeyError e); [destruct default |]; exact Hget.
Qed.

Lemma setdefault_keeps key default w :
  I w -> I (snd (setdefault EdgeAttr impl key default w)).
Proof.
  intros Hw. unfold setdefault, try_except_KeyError.
  pose proof (getitem_keeps key w Hw) as Hget.
  destruct (__getitem__ EdgeAttr impl key w) as [[r | e] w']; simpl in *.
  - exact Hget.
  - destruct (is_KeyError e); [| exact Hget].
    unfold bind.
    pose proof (setitem_keeps key default w' Hget) as Hset.
    destruct (__setitem__ EdgeAttr impl key default w') as [[r | e'] w'']; exact Hset.
Qed.

End Invariant.

Lemma has_layout_set (k v : PyVal) (d : Dict) :
  has_layout k = true ->
  forallb (fun kv => has_layout (fst kv)) d = true ->
  forallb (fun kv => has_layout (fst kv)) (dict_set k v d) = true.
Proof.
  intros Hk. induction d as [| [k' v'] d IH]; simpl.
  - intros _. now rewrite Hk.
  - rewrite andb_true_iff. intros [Hk' Hd].
    destruct (PyVal_eqb k k'); simpl; rewrite Hk'; [exact Hd | exact (IH Hd)].
Qed.

Lemma DictGraph_put_keeps_layouts (edge_index l t : PyVal) (w : World Dict) :
  truthy l = Ok true ->
  layouts_set w ->
  layouts_set (snd (_put_edge_index DictGraph edge_index (PEdgeAttr l t) w)).
Proof.
  intros Ht Hw. rewrite DictGraph_put. unfold layouts_set in *. simpl.
  apply has_layout_set; [| exact Hw]. simpl. now rewrite Ht.
Qed.

Lemma DictGraph_get_keeps_layouts (l t : PyVal) (w : World Dict) :
  layouts_set w -> layouts_set (snd (_get_edge_index DictGraph (PEdgeAttr l t) w)).
Proof.
  intros Hw. now rewrite DictGraph_get.
Qed.

(** X10: the public methods keep every invariant of the state that the two
    hooks keep.  If [_put_edge_index], called with a key whose layout is true,
    and [_get_edge_index] preserve a property of the state, then so does
    every method of the class and every mixin method it inherits, on all
    arguments, whether the call returns or raises: no method changes the
    state except through a hook, and [_put_edge_index] is never entered with
    a key that has no layout. *)
Theorem public_methods_keep_invariant
        {S : Type} (impl : Impl S) (I : World S -> Prop) (w : World S) :
  (forall edge_index l t w0,
      truthy l = Ok true -> I w0 ->
      I (snd (_put_edge_index impl edge_index (PEdgeAttr l t) w0))) ->
  (forall l t w0, I w0 -> I (snd (_get_edge_index impl (PEdgeAttr l t) w0))) ->
  I w ->
  (forall edge_index args kwargs,
      I (snd (put_edge_index EdgeAttr impl edge_index args kwargs w)))
  /\ (forall args kwargs, I (snd (get_edge_index EdgeAttr impl args kwargs w)))
  /\ (forall input_nodes args kwargs, I (snd (sample input_nodes args kwargs w)))
  /\ (forall key value, I (snd (__setitem__ EdgeAttr impl key value w)))
  /\ (forall key, I (snd (__getitem__ EdgeAttr impl key w)))
  /\ (forall key, I (snd (__delitem__ key w)))
  /\ I (snd (__iter__ w))
  /\ I (snd (__len__ w))
  /\ (forall key, I (snd (__contains__ EdgeAttr impl key w)))
  /\ (forall key default, I (snd (get EdgeAttr impl key default w)))
  /\ (forall key default, I (snd (pop EdgeAttr impl key default w)))
  /\ (forall key default, I (snd (setdefault EdgeAttr impl key default w))).
Proof.
  intros Hput Hget Hw. repeat split; intros; try exact Hw.
  - now apply put_edge_index_keeps.
  - now apply get_edge_index_keeps.
  - now apply setitem_keeps.
  - now apply getitem_keeps.
  - now apply contains_keeps.
  - now apply mapping_get_keeps.
  - now apply pop_keeps.
  - now apply setdefault_keeps.
Qed.

Lemma public_methods_keep_invariant_witness :
  layouts_set
    (snd (__setitem__ EdgeAttr DictGraph (PTuple [PLayout CSR; PStr "cites"]) csr_01_12
            (fresh [(PTuple [PLayout COO; PNone], coo_01_12)])))
  /\ layouts_set
       (snd (setdefault EdgeAttr DictGraph (PTuple [PNone; PStr "cites"]) csr_01_12
               (fresh [(PTuple [PLayout COO; PNone], coo_01_12)]))).
Proof.
  destruct (public_methods_keep_invariant DictGraph layouts_set
              (fresh [(PTuple [PLayout COO; PNone], coo_01_12)])
              DictGraph_put_keeps_layouts DictGraph_get_keeps_layouts eq_refl)
    as (_ & _ & _ & Hset & _ & _ & _ & _ & _ & _ & _ & Hsetdefault).
  split; [apply Hset | apply Hsetdefault].
Defined.

(** X11: with the hook bodies of the source the class keeps no state at all:
    every method, the inherited mixin methods included, leaves the state
    exactly as it found it, on all arguments; and a put never answers with a
    true value: it returns [None] or raises. *)
Theorem base_class_keeps_no_state {S : Type} (w : World S) :
  (forall edge_index args kwargs,
      snd (put_edge_index EdgeAttr (Abstract S) edge_index args kwargs w) = w
      /\ (fst (put_edge_index EdgeAttr (Abstract S) edge_index args kwargs w) = Return PNone
          \/ exists e, fst (put_edge_index EdgeAttr (Abstract S) edge_index args kwargs w)
                       = Raise e))
  /\ (forall args kwargs, snd (get_edge_index EdgeAttr (Abstract S) args kwargs w) = w)
  /\ (forall key value, snd (__setitem__ EdgeAttr (Abstract S) key value w) = w)
  /\ (forall key, snd (__getitem__ EdgeAttr (Abstract S) key w) = w)
  /\ (forall key, snd (__contains__ EdgeAttr (Abstract S) key w) = w)
  /\ (forall key default, snd (get EdgeAttr (Abstract S) key default w) = w)
  /\ (forall key default, snd (pop EdgeAttr (Abstract S) key default w) = w)
  /\ (forall key default, snd (setdefault EdgeAttr (Abstract S) key default w) = w).
Proof.
  assert (forall edge_index l t w0,
             truthy l = Ok true -> w0 = w ->
             snd (_put_edge_index (Abstract S) edge_index (PEdgeAttr l t) w0) = w)
    as Hput by (intros; assumption).
  assert (forall l t w0, w0 = w -> snd (_get_edge_index (Abstract S) (PEdgeAttr l t) w0) = w)
    as Hget by (intros; assumption).
  repeat split; intros.
  - exact (put_edge_index_keeps (Abstract S) (fun w0 => w0 = w) Hput _ _ _ w eq_refl).
  - unfold put_edge_index, bind.
    destruct (cast EdgeAttr args kwargs) as [k | e]; simpl; [| eauto].
    destruct (getattr_layout k) as [l | e]; simpl; [| eauto].
    destruct (truthy l) as [[|] | e]; simpl; eauto.
  - exact (get_edge_index_keeps (Abstract S) (fun w0 => w0 = w) Hget _ _ w eq_refl).
  - exact (setitem_keeps (Abstract S) (fun w0 => w0 = w) Hput _ _ w eq_refl).
  - exact (getitem_keeps (Abstract S) (fun w0 => w0 = w) Hget _ w eq_refl).
  - exact (contains_keeps (Abstract S) (fun w0 => w0 = w) Hget _ w eq_refl).
  - exact (mapping_get_keeps (Abstract S) (fun w0 => w0 = w) Hget _ _ w eq_refl).
  - exact (pop_keeps (Abstract S) (fun w0 => w0 = w) Hget _ _ w eq_refl).
  - exact (setdefault_keeps (Abstract S) (fun w0 => w0 = w) Hput Hget _ _ w eq_refl).
Qed.

(** ** The inherited mixin methods *)

(** X12: the membership test [key in graph] of the class as the source
    defines it (its own [_get_edge_index] body) answers [True] for every key
    that casts, whether or not anything was ever put under it, and never
    answers [False]; in a subclass it answers [False] only when
    [_get_edge_index] raises [KeyError] for the cast key. *)
Theorem contains_answers_False_only_on_KeyError
        {S : Type} (impl : Impl S) (key : PyVal) (w : World S) :
  __contains__ EdgeAttr (Abstract S) key w
  = match cast EdgeAttr [key] [] with
    | Ok _ => (Return (PBool true), w)
    | Err e => (Raise e, w)
    end
  /\ (forall w',
         __contains__ EdgeAttr impl key w = (Return (PBool false), w') ->
         exists k kk,
           cast EdgeAttr [key] [] = Ok k
           /\ _get_edge_index impl k w = (Raise (KeyError kk), w')).
Proof.
  split.
  - unfold __contains__, try_except_KeyError.
    destruct (cast EdgeAttr [key] []) as [k | e] eqn:Hc.
    + now rewrite (getitem_as_hook (Abstract S) _ _ w Hc).
    + rewrite (getitem_cast_error (Abstract S) _ _ w Hc).
      destruct (cast_error _ _ _ Hc) as (msg & ->). reflexivity.
  - intros w'. unfold __contains__, try_except_KeyError.
    destruct (cast EdgeAttr [key] []) as [k | e] eqn:Hc.
    + rewrite (getitem_as_hook impl _ _ w Hc).
      destruct (_get_edge_index impl k w) as [[r | e] w''] eqn:Hg; simpl.
      * discriminate.
      * destruct e as [| | | kk |]; simpl; try discriminate.
        intros [= <-]. eauto.
    + rewrite (getitem_cast_error impl _ _ w Hc).
      destruct (cast_error _ _ _ Hc) as (msg & ->). discriminate.
Qed.

(** X13: a default is used only when [_get_edge_index] raises [KeyError].  On
    the class as the source defines it, [get(key, default)] and
    [setdefault(key, default)] return [None], not the default, for every key
    that casts, and store nothing; in a subclass both return what the hook
    returns when it returns, and [get] returns the default exactly in the
    state in which the hook raised [KeyError]. *)
Theorem default_is_used_only_on_KeyError
        {S : Type} (impl : Impl S) (key default k : PyVal) (w : World S) :
  cast EdgeAttr [key] [] = Ok k ->
  get EdgeAttr (Abstract S) key default w = (Return PNone, w)
  /\ setdefault EdgeAttr (Abstract S) key default w = (Return PNone, w)
  /\ (forall v w',
         _get_edge_index impl k w = (Return v, w') ->
         get EdgeAttr impl key default w = (Return v, w')
         /\ setdefault EdgeAttr impl key default w = (Return v, w'))
  /\ (forall kk w',
         _get_edge_index impl k w = (Raise (KeyError kk), w') ->
         get EdgeAttr impl key default w = (Return default, w')).
Proof.
  intros Hc. unfold get, setdefault, try_except_KeyError.
  rewrite (getitem_as_hook (Abstract S) _ _ w Hc), (getitem_as_hook impl _ _ w Hc).
  split; [reflexivity |]. split; [reflexivity |]. split.
  - intros v w' Hg. rewrite Hg. split; reflexivity.
  - intros kk w' Hg. rewrite Hg. reflexivity.
Qed.

Lemma default_is_used_only_on_KeyError_witness :
  get EdgeAttr (Abstract unit) (PTuple [PLayout COO; PStr "cites"]) coo_01_12 (fresh tt)
  = (Return PNone, fresh tt)
  /\ setdefault EdgeAttr DictGraph (PTuple [PLayout COO; PStr "cites"]) coo_01_12 (fresh [])
     = (Return PNone, fresh []).
Proof.
  destruct (default_is_used_only_on_KeyError DictGraph
              (PTuple [PLayout COO; PStr "cites"]) coo_01_12
              (PEdgeAttr (PLayout COO) (PStr "cites")) (fresh []) eq_refl)
    as (_ & _ & Hret & _).
  split.
  - exact (proj1 (default_is_used_only_on_KeyError (Abstract unit)
                    (PTuple [PLayout COO; PStr "cites"]) coo_01_12
                    (PEdgeAttr (PLayout COO) (PStr "cites")) (fresh tt) eq_refl)).
  - exact (proj2 (Hret PNone (fresh []) eq_refl)).
Defined.

(** X14: [pop] never returns a value that it found: in every subclass, when
    [_get_edge_index] returns for the cast key, [pop(key)] goes on to delete
    the key and raises [NotImplementedError], with or without a default,
    leaving the state as the hook left it. *)
Theorem pop_never_returns_a_found_value
        {S : Type} (impl : Impl S) (key : PyVal) (default : option PyVal)
        (k v : PyVal) (w w' : World S) :
  cast EdgeAttr [key] [] = Ok k ->
  _get_edge_index impl k w = (Return v, w') ->
  pop EdgeAttr impl key default w = (Raise NotImplementedError, w').
Proof.
  intros Hc Hg. unfold pop, try_except_KeyError.
  rewrite (getitem_as_hook impl _ _ w Hc), Hg. reflexivity.
Qed.

Lemma pop_never_returns_a_found_value_witness :
  pop EdgeAttr DictGraph (PTuple [PLayout COO; PNone]) (Some PNone)
    (fresh [(PTuple [PLayout COO; PNone], coo_01_12)])
  = (Raise NotImplementedError, fresh [(PTuple [PLayout COO; PNone], coo_01_12)]).
Proof.
  exact (pop_never_returns_a_found_value DictGraph (PTuple [PLayout COO; PNone])
           (Some PNone) (PEdgeAttr (PLayout COO) PNone) coo_01_12
           (fresh [(PTuple [PLayout COO; PNone], coo_01_12)])
           (fresh [(PTuple [PLayout COO; PNone], coo_01_12)]) eq_refl eq_refl).
Defined.
